(** * Technical-drawing analyser: STEP feature extractor and material recommender

    A shallow embedding of the data-transformation core of [server.js]:
    - [parseStepFile] (line scanner and close handler),
    - [calculateWeight], [calculateCost] and the [/recalculate] route,
    - [findAlternatives], [calculateSimilarityScore], [compareMaterials].

    Modelling conventions.
    - A JavaScript number is a [number]: NaN, the two infinities, or a finite
      rational.  Arithmetic on finite values is exact: binary64 rounding,
      overflow, underflow and the sign of zero are not modelled.  The
      general statements are therefore phrased with the comparisons the
      code itself makes and with facts that rounding preserves (order,
      sign, NaN), not with exact values of products and quotients.
    - A JavaScript string is a [string] of code units below 256 (Latin-1).
    - The sqlite table [materials] is a list of rows in rowid order; a query
      either fails with a message or returns rows.  A REAL or INTEGER
      column holds a finite number or NULL, a TEXT column a string or
      NULL. *)

From Stdlib Require Import QArith Qabs Qminmax ZArith List Bool Ascii String.
From Stdlib Require Import Lia Lqa Permutation Sorted.
Import ListNotations.

Set Implicit Arguments.

(* ================================================================== *)
(** ** JavaScript numbers *)
(* ================================================================== *)

Module JsNumber.

Inductive number : Type :=
| NaN
| PInf
| NInf
| Fin (q : Q).

Definition Qsgn (q : Q) : comparison := Qcompare q 0.

Definition neg (a : number) : number :=
  match a with
  | NaN => NaN
  | PInf => NInf
  | NInf => PInf
  | Fin q => Fin (- q)
  end.

Definition add (a b : number) : number :=
  match a, b with
  | NaN, _ | _, NaN => NaN
  | PInf, NInf | NInf, PInf => NaN
  | PInf, _ | _, PInf => PInf
  | NInf, _ | _, NInf => NInf
  | Fin p, Fin q => Fin (p + q)
  end.

Definition sub (a b : number) : number := add a (neg b).

(** The sign of an infinity times a finite factor; a zero factor gives NaN. *)
Definition scale_inf (positive : bool) (q : Q) : number :=
  match Qsgn q with
  | Eq => NaN
  | Gt => if positive then PInf else NInf
  | Lt => if positive then NInf else PInf
  end.

Definition mul (a b : number) : number :=
  match a, b with
  | NaN, _ | _, NaN => NaN
  | PInf, PInf | NInf, NInf => PInf
  | PInf, NInf | NInf, PInf => NInf
  | PInf, Fin q | Fin q, PInf => scale_inf true q
  | NInf, Fin q | Fin q, NInf => scale_inf false q
  | Fin p, Fin q => Fin (p * q)
  end.

(** Division; a zero divisor is the positive zero. *)
Definition div (a b : number) : number :=
  match a, b with
  | NaN, _ | _, NaN => NaN
  | (PInf | NInf), (PInf | NInf) => NaN
  | PInf, Fin q => match Qsgn q with Lt => NInf | _ => PInf end
  | NInf, Fin q => match Qsgn q with Lt => PInf | _ => NInf end
  | Fin _, (PInf | NInf) => Fin 0
  | Fin p, Fin q =>
      match Qsgn q with
      | Eq => match Qsgn p with Eq => NaN | Gt => PInf | Lt => NInf end
      | _ => Fin (p / q)
      end
  end.

(** [Math.abs]. *)
Definition abs (a : number) : number :=
  match a with
  | NaN => NaN
  | PInf | NInf => PInf
  | Fin q => Fin (Qabs q)
  end.

(** [a < b]; false as soon as one side is NaN. *)
Definition ltb (a b : number) : bool :=
  match a, b with
  | NaN, _ | _, NaN => false
  | _, NInf => false
  | PInf, _ => false
  | NInf, _ => true
  | _, PInf => true
  | Fin p, Fin q => match Qcompare p q with Lt => true | _ => false end
  end.

(** [a === b] on numbers; NaN differs from itself. *)
Definition eqb (a b : number) : bool :=
  match a, b with
  | PInf, PInf | NInf, NInf => true
  | Fin p, Fin q => Qeq_bool p q
  | _, _ => false
  end.

Definition leb (a b : number) : bool := ltb a b || eqb a b.
Definition gtb (a b : number) : bool := ltb b a.
Definition geb (a b : number) : bool := leb b a.

Definition isNaN (a : number) : bool :=
  match a with NaN => true | _ => false end.

(** ToBoolean on a number: 0 and NaN are falsy. *)
Definition truthy (a : number) : bool :=
  match a with
  | NaN => false
  | Fin q => negb (Qeq_bool q 0)
  | _ => true
  end.

(** [Math.min] and [Math.max] of two arguments. *)
Definition min (a b : number) : number :=
  match a, b with
  | NaN, _ | _, NaN => NaN
  | _, _ => if ltb b a then b else a
  end.

Definition max (a b : number) : number :=
  match a, b with
  | NaN, _ | _, NaN => NaN
  | _, _ => if ltb a b then b else a
  end.

(** [Math.max(...xs)]: -Infinity on no argument. *)
Definition max_list (xs : list number) : number := fold_left max xs NInf.

(** Same mathematical value (NaN is related to NaN here, unlike [eqb]). *)
Definition same (a b : number) : Prop :=
  match a, b with
  | NaN, NaN | PInf, PInf | NInf, NInf => True
  | Fin p, Fin q => p == q
  | _, _ => False
  end.

Definition finite (a : number) : Prop :=
  match a with Fin _ => True | _ => False end.

Definition of_Z (z : Z) : number := Fin (inject_Z z).

End JsNumber.

Import JsNumber.

Declare Scope num_scope.
Delimit Scope num_scope with num.
Infix "+" := add : num_scope.
Infix "-" := sub : num_scope.
Infix "*" := mul : num_scope.
Infix "/" := div : num_scope.
Infix "<?" := ltb : num_scope.
Infix "<=?" := leb : num_scope.
Infix ">?" := gtb : num_scope.
Infix ">=?" := geb : num_scope.
Infix "=?" := eqb : num_scope.
Infix "==" := same : num_scope.

(* ================================================================== *)
(** ** JavaScript strings and the regular expressions of the scanner *)
(* ================================================================== *)

Module JsString.

Local Open Scope string_scope.
Local Open Scope char_scope.

Definition code (c : ascii) : nat := nat_of_ascii c.

Definition is_empty (s : string) : bool :=
  match s with EmptyString => true | _ => false end.

(** White space of [\s], [trim] and [parseFloat] among the Latin-1 code
    units: TAB, LF, VT, FF, CR, SP and NBSP. *)
Definition is_space (c : ascii) : bool :=
  let n := code c in
  ((9 <=? n) && (n <=? 13) || (n =? 32) || (n =? 160))%nat.

Definition is_digit (c : ascii) : bool :=
  let n := code c in ((48 <=? n) && (n <=? 57))%nat.

Definition lower_char (c : ascii) : ascii :=
  let n := code c in
  if ((65 <=? n) && (n <=? 90))%nat then ascii_of_nat (n + 32)
  else if ((192 <=? n) && (n <=? 222) && negb (n =? 215))%nat
       then ascii_of_nat (n + 32)
       else c.

Fixpoint toLowerCase (s : string) : string :=
  match s with
  | EmptyString => EmptyString
  | String c s' => String (lower_char c) (toLowerCase s')
  end.

(** [s.includes(sub)]. *)
Fixpoint includes (s sub : string) : bool :=
  prefix sub s ||
  match s with
  | EmptyString => false
  | String _ s' => includes s' sub
  end.

Fixpoint strip_prefix (p s : string) : option string :=
  match p, s with
  | EmptyString, _ => Some s
  | String a p', String b s' => if Ascii.eqb a b then strip_prefix p' s' else None
  | _, EmptyString => None
  end.

(** Longest prefix of characters satisfying [p], and what follows it. *)
Fixpoint span (p : ascii -> bool) (s : string) : string * string :=
  match s with
  | EmptyString => (EmptyString, EmptyString)
  | String c s' =>
      if p c then let (a, b) := span p s' in (String c a, b)
      else (EmptyString, s)
  end.

(** The characters before the first [c], and the text after that [c] when
    there is one. *)
Fixpoint span_until (c : ascii) (s : string) : string * option string :=
  match s with
  | EmptyString => (EmptyString, None)
  | String a s' =>
      if Ascii.eqb a c then (EmptyString, Some s')
      else let (u, r) := span_until c s' in (String a u, r)
  end.

Fixpoint trimStart (s : string) : string :=
  match s with
  | EmptyString => EmptyString
  | String c s' => if is_space c then trimStart s' else s
  end.

Fixpoint trimEnd (s : string) : string :=
  match s with
  | EmptyString => EmptyString
  | String c s' =>
      let t := trimEnd s' in
      if is_space c && is_empty t then EmptyString else String c t
  end.

Definition trim (s : string) : string := trimEnd (trimStart s).

(** [s.split(sep)] for a one-character separator: never the empty array. *)
Fixpoint split (sep : ascii) (s : string) : list string :=
  match s with
  | EmptyString => [EmptyString]
  | String c s' =>
      if Ascii.eqb c sep then EmptyString :: split sep s'
      else match split sep s' with
           | [] => [String c EmptyString]
           | h :: t => String c h :: t
           end
  end.

(** [s.replace(/[..]/g, '')]: delete every character satisfying [p]. *)
Fixpoint remove (p : ascii -> bool) (s : string) : string :=
  match s with
  | EmptyString => EmptyString
  | String c s' => if p c then remove p s' else String c (remove p s')
  end.

(** First match of the regular expression [o([^c]+)c], as the text between
    the delimiters.  The scanner uses it as [/'([^']+)'/g] and
    [/\(([^)]+)\)/g], keeps element 0 of the matches and deletes the
    delimiters from it; the captured run holds no [c], so for the quotes
    this is the captured text, and for the parentheses it is the captured
    text with its opening parentheses still in (see [first_group]). *)
Fixpoint first_delimited (o c : ascii) (s : string) : option string :=
  match s with
  | EmptyString => None
  | String a s' =>
      if Ascii.eqb a o then
        match span_until c s' with
        | (String b u, Some _) => Some (String b u)
        | _ => first_delimited o c s'
        end
      else first_delimited o c s'
  end.

(** [line.match(/'([^']+)'/g)[0].replace(/'/g, '')] when there is a match. *)
Definition first_quoted (line : string) : option string :=
  first_delimited "'" "'" line.

Definition is_paren (c : ascii) : bool := Ascii.eqb c "(" || Ascii.eqb c ")".

(** [line.match(/\(([^)]+)\)/g)[0].replace(/[()]/g, '')] when there is a
    match. *)
Definition first_group (line : string) : option string :=
  option_map (remove is_paren) (first_delimited "(" ")" line).

Definition is_radius_char (c : ascii) : bool := is_digit c || Ascii.eqb c ".".

(** The rest of [/CIRCLE\s*\([^)]*\)\s*,\s*([0-9.]+)/] once [CIRCLE] has been
    read: the captured group. *)
Definition circle_tail (s : string) : option string :=
  match trimStart s with
  | String "(" r1 =>
      match span_until ")" r1 with
      | (_, Some r2) =>
          match trimStart r2 with
          | String "," r3 =>
              match fst (span is_radius_char (trimStart r3)) with
              | EmptyString => None
              | run => Some run
              end
          | _ => None
          end
      | _ => None
      end
  | _ => None
  end.

(** [line.match(/CIRCLE\s*\([^)]*\)\s*,\s*([0-9.]+)/)[1]]: the leftmost
    position where the whole expression matches. *)
Fixpoint match_circle (s : string) : option string :=
  match s with
  | EmptyString => None
  | String _ s' =>
      match match strip_prefix "CIRCLE" s with
            | Some r => circle_tail r
            | None => None
            end with
      | Some run => Some run
      | None => match_circle s'
      end
  end.

(** *** parseFloat *)

Fixpoint digits_value (acc : Z) (s : string) : Z :=
  match s with
  | EmptyString => acc
  | String c s' => digits_value (10 * acc + Z.of_nat (code c - 48)) s'
  end.

Definition pow10 (e : Z) : Q :=
  if (0 <=? e)%Z then inject_Z (10 ^ e) else 1 # Z.to_pos (10 ^ (- e)).

Definition read_sign (s : string) : bool * string :=
  match s with
  | String "-" r => (true, r)
  | String "+" r => (false, r)
  | _ => (false, s)
  end.

(** ExponentPart, when it is complete: [e] or [E], a sign, digits. *)
Definition read_exponent (s : string) : Z :=
  match s with
  | String c r =>
      if Ascii.eqb c "e" || Ascii.eqb c "E" then
        let (negative, r') := read_sign r in
        match fst (span is_digit r') with
        | EmptyString => 0%Z
        | ds => if negative then (- digits_value 0 ds)%Z else digits_value 0 ds
        end
      else 0%Z
  | EmptyString => 0%Z
  end.

(** [parseFloat(s)]: leading white space is dropped, the longest prefix that
    is a StrDecimalLiteral is read, NaN when there is none. *)
Definition parseFloat (input : string) : number :=
  let (negative, s) := read_sign (trimStart input) in
  if prefix "Infinity" s then (if negative then NInf else PInf)
  else
    let (ip, r1) := span is_digit s in
    let (fp, r2) := match r1 with
                    | String "." r => span is_digit r
                    | _ => (EmptyString, r1)
                    end in
    if is_empty ip && is_empty fp then NaN
    else
      let m := digits_value 0 (ip ++ fp) in
      let e := (read_exponent r2 - Z.of_nat (String.length fp))%Z in
      Fin (Qred (inject_Z (if negative then - m else m) * pow10 e)).

End JsString.

Import JsString.
Local Open Scope string_scope.

(* ================================================================== *)
(** ** Array.prototype.sort and promises *)
(* ================================================================== *)

Module JsArray.
Section Sort.
Variable A : Type.
Variable comparefn : A -> A -> number.

(** [comparefn(x, y) > 0]: [x] is to come after [y].  A NaN result counts
    as 0, as ECMAScript prescribes. *)
Definition after (x y : A) : bool := (Fin 0 <? comparefn x y)%num.

(** Stable insertion of a later element [x] into the part already
    sorted.  [sort] is stable since ECMAScript 2019, so whenever
    [comparefn] is a consistent comparator every conforming engine returns
    this very array.  On an inconsistent one (NaN elements under a
    subtraction) the order is the engine's choice: a left-to-right
    insertion returns what Node returns on [NaN, 3, 6] and on [NaN, 4, 3],
    the two such arrays evaluated below, but not on every array (Node
    leaves [3, NaN, 5] as it is), so every general statement about sorted
    extents assumes that none of them is NaN. *)
Fixpoint insert (x : A) (l : list A) : list A :=
  match l with
  | [] => [x]
  | y :: l' => if after y x then x :: l else y :: insert x l'
  end.

Definition sort (l : list A) : list A :=
  fold_left (fun acc x => insert x acc) l [].
End Sort.
End JsArray.

(** A settled promise: what [resolve] or [reject] received. *)
Inductive promise (A : Type) : Type :=
| Resolved (value : A)
| Rejected (err : string).
Arguments Resolved {A} value.
Arguments Rejected {A} err.

(* ================================================================== *)
(** ** Feature extractor: parseStepFile *)
(* ================================================================== *)

Module Dim.
Record t : Type := mk { length : number; width : number; height : number }.
End Dim.

Module Extractor.

Definition triple : Type := (number * number * number)%type.

Record BoundingBox : Type := mkBox { box_min : triple; box_max : triple }.

Record ScanState : Type := mkScan {
  fileContent : string;
  productName : string;
  materialInfo : string;
  boundingBox : BoundingBox;
  cartesianPoints : list (list number);
  annotations : list string;
  circles : list number
}.

Record StepData : Type := mkStep {
  sd_productName : string;
  sd_dimensions : Dim.t;
  sd_material : string;
  sd_annotations : list string;
  sd_boundingBox : BoundingBox;
  sd_cartesianPoints : list (list number);
  sd_circles : list number
}.

Definition initialBox : BoundingBox :=
  mkBox (PInf, PInf, PInf) (NInf, NInf, NInf).

Definition initialState : ScanState :=
  mkScan "" "" "" initialBox [] [] [].

Definition newline : string := String (ascii_of_nat 10) "".

(** The French marker of the material line, with its e-acute (U+00E9). *)
Definition materiau : string := "mat" ++ String (ascii_of_nat 233) "riau".

(** [coords[i]]; an index past the end reads [undefined], which every
    numeric use turns into NaN. *)
Definition coord (coords : list number) (i : nat) : number := nth i coords NaN.

(** The six [Math.min] / [Math.max] updates of the bounding box. *)
Definition updateBox (bb : BoundingBox) (coords : list number) : BoundingBox :=
  let '(n0, n1, n2) := box_min bb in
  let '(x0, x1, x2) := box_max bb in
  mkBox (min n0 (coord coords 0), min n1 (coord coords 1), min n2 (coord coords 2))
        (max x0 (coord coords 0), max x1 (coord coords 1), max x2 (coord coords 2)).

(** [coordStr.split(',').map(c => parseFloat(c.trim()))]. *)
Definition parseCoords (coordStr : string) : list number :=
  map (fun c => parseFloat (trim c)) (split "," coordStr).

(** The body of [rl.on('line', ...)]. *)
Definition onLine (st : ScanState) (line : string) : ScanState :=
  let content := fileContent st ++ line ++ newline in
  let name :=
    if includes line "PRODUCT" && includes line "'" && is_empty (productName st)
    then match first_quoted line with
         | Some m => m
         | None => productName st
         end
    else productName st in
  let material :=
    if (includes (toLowerCase line) "material" || includes (toLowerCase line) materiau)
       && includes line "'" && is_empty (materialInfo st)
    then match first_quoted line with
         | Some m => m
         | None => materialInfo st
         end
    else materialInfo st in
  let notes :=
    if includes line "ANNOTATION" || includes line "NOTE" || includes line "REMARK"
    then match first_quoted line with
         | Some m => (annotations st ++ [m])%list
         | None => annotations st
         end
    else annotations st in
  let '(points, box) :=
    if includes line "CARTESIAN_POINT"
    then match first_group line with
         | Some coordStr =>
             let coords := parseCoords coordStr in
             if (3 <=? List.length coords)%nat
             then ((cartesianPoints st ++ [coords])%list,
                   updateBox (boundingBox st) coords)
             else (cartesianPoints st, boundingBox st)
         | None => (cartesianPoints st, boundingBox st)
         end
    else (cartesianPoints st, boundingBox st) in
  let radii :=
    if includes line "CIRCLE"
    then match match_circle line with
         | Some radius => (circles st ++ [parseFloat radius])%list
         | None => circles st
         end
    else circles st in
  mkScan content name material box points notes radii.

Definition scan (lines : list string) : ScanState :=
  fold_left onLine lines initialState.

Definition defaultDimensions : Dim.t := Dim.mk (Fin 30) (Fin 30) (Fin 5).

(** The three extents of the box, before they are sorted. *)
Definition rawExtents (bb : BoundingBox) : list number :=
  let '(n0, n1, n2) := box_min bb in
  let '(x0, x1, x2) := box_max bb in
  [abs (x0 - n0); abs (x1 - n1); abs (x2 - n2)]%num.

(** [boundingBox.min[0] !== Infinity && boundingBox.max[0] !== -Infinity]. *)
Definition foundPoints (bb : BoundingBox) : bool :=
  let '(n0, _, _) := box_min bb in
  let '(x0, _, _) := box_max bb in
  negb (n0 =? PInf)%num && negb (x0 =? NInf)%num.

(** [.sort((a, b) => b - a)] on the extents. *)
Definition sortedExtents (bb : BoundingBox) : list number :=
  JsArray.sort (fun a b => (b - a)%num) (rawExtents bb).

Definition isWasher (radii : list number) (name : string) : bool :=
  (0 <? List.length radii)%nat && includes (toLowerCase name) "rondelle".

(** The dimension part of [rl.on('close', ...)]. *)
Definition closeDimensions (bb : BoundingBox) (radii : list number)
    (name : string) : Dim.t :=
  if foundPoints bb then
    let dims := sortedExtents bb in
    let sorted := Dim.mk (nth 0 dims NaN) (nth 1 dims NaN) (nth 2 dims NaN) in
    if isWasher radii name then
      let largestRadius := max_list radii in
      if includes name "Rondelleintercloche"
      then Dim.mk (Fin 30) (Fin 30) (Fin 5)
      else Dim.mk (largestRadius * Fin 2)%num (largestRadius * Fin 2)%num
                  (Dim.height sorted)
    else sorted
  else defaultDimensions.

(** The material part of [rl.on('close', ...)]. *)
Definition closeMaterial (info content : string) : string :=
  let text := toLowerCase content in
  if negb (is_empty info) then info
  else if includes text "acier" then "AISI 1018 Steel"
  else if includes text "aluminium" || includes text "aluminum" then "Aluminum 6061-T6"
  else if includes text "titanium" || includes text "titane" then "Ti-6Al-4V"
  else "AISI 1018 Steel".

Definition onClose (st : ScanState) : StepData :=
  mkStep (productName st)
         (closeDimensions (boundingBox st) (circles st) (productName st))
         (closeMaterial (materialInfo st) (fileContent st))
         (annotations st) (boundingBox st) (cartesianPoints st) (circles st).

(** How the read of the file ends: the [close] event, or an [error]. *)
Inductive stream_end : Type :=
| Close
| ReadError (err : string).

Definition parseStepFile (lines : list string) (fin : stream_end)
    : promise StepData :=
  match fin with
  | ReadError err => Rejected err
  | Close => Resolved (onClose (scan lines))
  end.

End Extractor.

(* ================================================================== *)
(** ** The materials table *)
(* ================================================================== *)

Module Db.

(** One row of [materials].  [density] and [cost_per_kg] are REAL NOT NULL;
    the other physical columns may hold NULL. *)
Record MaterialRecord : Type := mkMaterial {
  id : Z;
  name : string;
  category : string;
  density : Q;
  cost_per_kg : Q;
  tensile_strength : option Q;
  yield_strength : option Q;
  elastic_modulus : option Q;
  thermal_expansion : option Q;
  thermal_conductivity : option Q;
  electrical_resistivity : option Q;
  corrosion_resistance : option string;
  machinability : option Q;
  weldability : option Q;
  common_uses : option string
}.

(** What a query calls its callback with. *)
Inductive query (A : Type) : Type :=
| Rows (result : A)
| SqlError (err : string).
Arguments Rows {A} result.
Arguments SqlError {A} err.

(** The two statements the recommender runs: [db.get] with
    [SELECT * FROM materials WHERE name = ?] and [db.all] with
    [SELECT * FROM materials WHERE id != ?]. *)
Record Database : Type := mkDb {
  get_by_name : string -> query (option MaterialRecord);
  all_except : Z -> query (list MaterialRecord)
}.

(** A healthy database over a table: [db.get] yields the first matching
    row, [db.all] the matching rows in table order. *)
Definition sqlite (table : list MaterialRecord) : Database :=
  mkDb (fun n => Rows (find (fun r => String.eqb (name r) n) table))
       (fun i => Rows (filter (fun r => negb (Z.eqb (id r) i)) table)).

Local Open Scope Q_scope.

(** The rows of [insertDefaultMaterials], in their order. *)
Definition defaultMaterials : list (Z -> MaterialRecord) :=
  let row n c d k ts ys em te tc er cr ma we cu :=
    fun i => mkMaterial i n c d k (Some ts) (Some ys) (Some em) (Some te)
                        (Some tc) (Some er) (Some cr) (Some ma) (Some we) (Some cu) in
  [ row "AISI 1018 Steel" "Steel" 7.87 1.2 440 370 205 11.5 51.9 15.9 "Low" 70 90
        "General purpose, shafts, pins";
    row "AISI 304 Stainless Steel" "Steel" 8.0 4.5 515 205 193 17.2 16.2 72.0 "High" 45 70
        "Food equipment, chemical containers";
    row "AISI 4140 Steel" "Steel" 7.85 1.8 655 415 210 12.3 42.6 22.0 "Medium" 55 65
        "Gears, axles, shafts";
    row "Tool Steel A2" "Steel" 7.86 8.0 1620 1520 203 10.8 24.0 65.0 "Medium" 30 20
        "Cutting tools, dies";
    row "Aluminum 6061-T6" "Aluminum" 2.7 3.5 310 276 68.9 23.6 167 3.7 "Medium" 85 50
        "Structural components, frames";
    row "Aluminum 7075-T6" "Aluminum" 2.81 5.2 572 503 71.7 23.4 130 5.2 "Medium" 70 30
        "Aircraft components, high-stress parts";
    row "Aluminum 1100-H14" "Aluminum" 2.71 3.0 110 103 68.9 23.6 222 2.9 "High" 95 90
        "Chemical equipment, heat exchangers";
    row "Brass C360" "Copper" 8.5 7.0 385 310 97 20.5 115 6.6 "Medium" 90 60
        "Plumbing, decorative hardware";
    row "Bronze C932" "Copper" 7.6 9.0 310 152 103 18.0 45 13.0 "High" 75 40
        "Bearings, bushings, gears";
    row "Copper C11000" "Copper" 8.94 8.5 220 69 117 17.0 391 1.7 "High" 85 80
        "Electrical components, heat exchangers";
    row "ABS" "Plastic" 1.05 2.8 40 40 2.3 90.0 0.17 1e15 "High" 90 0
        "Consumer products, automotive components";
    row "Polycarbonate" "Plastic" 1.2 4.5 65 62 2.4 65.0 0.21 1e16 "High" 85 0
        "Safety equipment, electronic housings";
    row "Nylon 6/6" "Plastic" 1.14 3.8 82 82 2.9 80.0 0.25 1e14 "High" 80 0
        "Gears, bearings, wear components";
    row "PEEK" "Plastic" 1.32 90.0 100 97 3.6 47.0 0.25 1e16 "Very High" 70 0
        "High-performance components, aerospace";
    row "Ti-6Al-4V" "Titanium" 4.43 35.0 950 880 113.8 8.6 6.7 170.0 "Very High" 30 40
        "Aerospace, medical implants";
    row "AZ31B Magnesium" "Magnesium" 1.77 6.0 260 200 45 26.0 96 9.2 "Low" 70 50
        "Lightweight components, electronics";
    row "Carbon Fiber Composite" "Composite" 1.6 50.0 600 570 70 2.0 5.0 1e13 "Very High" 20 0
        "Aerospace, high-performance components" ].

(** AUTOINCREMENT on the empty table: row ids 1, 2, ... in insertion order. *)
Fixpoint autoincrement (next : Z) (rows : list (Z -> MaterialRecord))
    : list MaterialRecord :=
  match rows with
  | [] => []
  | r :: rows' => r next :: autoincrement (next + 1)%Z rows'
  end.

Definition insertDefaultMaterials : list MaterialRecord :=
  autoincrement 1%Z defaultMaterials.

End Db.

(* ================================================================== *)
(** ** Weight and cost: calculateWeight, calculateCost, /recalculate *)
(* ================================================================== *)

Module Calculator.
Import Db.

(** A value of a JSON request body that reaches [parseFloat]. *)
Inductive jsvalue : Type :=
| JNum (n : number)
| JStr (s : string).

(** [parseFloat(v)].  On a number it reads the number's own decimal text
    back, which is that number. *)
Definition toFloat (v : jsvalue) : number :=
  match v with
  | JNum n => n
  | JStr s => parseFloat s
  end.

Definition million : number := Fin 1000000.

Definition calculateWeight (db : Database) (materialName : string)
    (volume : jsvalue) : promise number :=
  let volume := toFloat volume in
  if isNaN volume then Rejected "Invalid volume value"
  else if (volume <=? Fin 0)%num then Rejected "Volume must be greater than zero"
  else match get_by_name db materialName with
       | SqlError err => Rejected err
       | Rows None => Resolved ((Fin 7.85 * volume) / million)%num
       | Rows (Some row) => Resolved ((Fin (density row) * volume) / million)%num
       end.

Definition calculateCost (db : Database) (materialName : string)
    (weight : jsvalue) : promise number :=
  let weight := toFloat weight in
  if isNaN weight then Rejected "Invalid weight value"
  else if (weight <=? Fin 0)%num then Rejected "Weight must be greater than zero"
  else match get_by_name db materialName with
       | SqlError err => Rejected err
       | Rows None => Resolved (weight * Fin 2.0)%num
       | Rows (Some row) => Resolved (weight * Fin (cost_per_kg row))%num
       end.

(** The answer of [POST /recalculate]. *)
Inductive response : Type :=
| Failure (status : nat) (error : string)
| WeightAndCost (weight cost : number).

Definition recalculate (db : Database) (material : string) (volume : jsvalue)
    : response :=
  if is_empty material then Failure 400 "Material is required"
  else
    let volumeNum := toFloat volume in
    if isNaN volumeNum || (volumeNum <=? Fin 0)%num
    then Failure 400 "Volume must be a positive number"
    else match calculateWeight db material (JNum volumeNum) with
         | Rejected err => Failure 500 err
         | Resolved weight =>
             match calculateCost db material (JNum weight) with
             | Rejected err => Failure 500 err
             | Resolved cost => WeightAndCost weight cost
             end
         end.

End Calculator.

(* ================================================================== *)
(** ** Material recommender *)
(* ================================================================== *)

Module Recommender.
Import Db.

(** What [record[prop]] evaluates to. *)
Inductive value : Type :=
| Null
| Num (q : Q)
| Str (s : string).

Inductive property : Type :=
| TensileStrength | YieldStrength | ElasticModulus | ThermalExpansion
| ThermalConductivity | CorrosionResistance | Machinability | Weldability.

Definition numeric (o : option Q) : value :=
  match o with Some q => Num q | None => Null end.

Definition textual (o : option string) : value :=
  match o with Some s => Str s | None => Null end.

Definition prop (m : MaterialRecord) (p : property) : value :=
  match p with
  | TensileStrength => numeric (tensile_strength m)
  | YieldStrength => numeric (yield_strength m)
  | ElasticModulus => numeric (elastic_modulus m)
  | ThermalExpansion => numeric (thermal_expansion m)
  | ThermalConductivity => numeric (thermal_conductivity m)
  | CorrosionResistance => textual (corrosion_resistance m)
  | Machinability => numeric (machinability m)
  | Weldability => numeric (weldability m)
  end.

Local Open Scope Q_scope.

(** The [properties] object, as [Object.entries] walks it. *)
Definition properties : list (property * Q) :=
  [ (TensileStrength, 10); (YieldStrength, 10); (ElasticModulus, 8);
    (ThermalExpansion, 5); (ThermalConductivity, 5); (CorrosionResistance, 7);
    (Machinability, 6); (Weldability, 5) ].

Definition totalWeight : Q :=
  fold_left (fun sum weight => sum + weight) (map snd properties) 0.

Definition Qltb (x y : Q) : bool :=
  match x ?= y with Lt => true | _ => false end.

Definition Qmaximum (x y : Q) : Q := if Qltb x y then y else x.
Definition Qminimum (x y : Q) : Q := if Qltb y x then y else x.

(** What one property adds to the score. *)
Definition propertyTerm (original alternative : value) (weight : Q) : Q :=
  match original, alternative with
  | Num x, Num y =>
      let maxVal := Qmaximum (Qabs x) (Qabs y) in
      if Qltb 0 maxVal then
        let diff := Qabs (x - y) / maxVal in
        let propScore := (1 - Qminimum diff 1) * 100 in
        propScore * weight / totalWeight
      else 100 * weight / totalWeight
  | Str s, Str t =>
      if String.eqb (toLowerCase s) (toLowerCase t)
      then 100 * weight / totalWeight
      else 0
  | _, _ => 0
  end.

Definition calculateSimilarityScore (original alternative : MaterialRecord) : Q :=
  let score :=
    fold_left (fun score '(p, weight) =>
                 score + propertyTerm (prop original p) (prop alternative p) weight)
              properties 0 in
  let score :=
    if String.eqb (category original) (category alternative)
    then score + 10 else score in
  Qminimum score 100.

(** *** compareMaterials *)

Record Delta : Type := mkDelta {
  original : number;
  alternative : number;
  difference : number;
  percent_change : number
}.

Record Comparison : Type := mkComparison {
  cmp_weight : Delta;
  cmp_cost : Delta;
  cmp_tensile_strength : option Delta;
  cmp_yield_strength : option Delta;
  cmp_elastic_modulus : option Delta
}.

(** The [dimensions] argument: every property may be missing. *)
Record DimensionsArg : Type := mkArg {
  arg_length : option number;
  arg_width : option number;
  arg_height : option number
}.

Definition ofDimensions (d : Dim.t) : option DimensionsArg :=
  Some (mkArg (Some (Dim.length d)) (Some (Dim.width d)) (Some (Dim.height d))).

Local Open Scope num_scope.

(** The difference and the guarded percentage, as the function writes them
    for the weight, for the cost and for each mechanical property. *)
Definition delta (orig alt : number) : Delta :=
  let diff := alt - orig in
  let diffPercent :=
    if negb (orig =? Fin 0) then (diff / orig) * Fin 100 else Fin 0 in
  mkDelta orig alt diff diffPercent.

Definition propertyDelta (orig alt : option Q) : option Delta :=
  match orig, alt with
  | Some o, Some a => Some (delta (Fin o) (Fin a))
  | _, _ => None
  end.

(** [dimensions && dimensions.length && dimensions.width && dimensions.height]
    chooses between the product and the default volume 1000. *)
Definition comparisonVolume (dimensions : option DimensionsArg) : number :=
  match dimensions with
  | Some (mkArg (Some l) (Some w) (Some h)) =>
      if truthy l && truthy w && truthy h then l * w * h else Fin 1000
  | _ => Fin 1000
  end.

Definition compareMaterials (orig alt : MaterialRecord)
    (dimensions : option DimensionsArg) : Comparison :=
  let volume := comparisonVolume dimensions in
  let originalWeight := (Fin (density orig) * volume) / Fin 1000000 in
  let altWeight := (Fin (density alt) * volume) / Fin 1000000 in
  let originalCost := Fin (cost_per_kg orig) * originalWeight in
  let altCost := Fin (cost_per_kg alt) * altWeight in
  mkComparison (delta originalWeight altWeight)
               (delta originalCost altCost)
               (propertyDelta (tensile_strength orig) (tensile_strength alt))
               (propertyDelta (yield_strength orig) (yield_strength alt))
               (propertyDelta (elastic_modulus orig) (elastic_modulus alt)).

(** *** findAlternatives *)

Record Alternative : Type := mkAlternative {
  material : MaterialRecord;
  similarity_score : Q;
  comparison : Comparison
}.

Definition scored : Type := (MaterialRecord * Q)%type.

Definition score (materials : list MaterialRecord) (originalMaterial : MaterialRecord)
    : list scored :=
  map (fun m => (m, calculateSimilarityScore originalMaterial m)) materials.

(** [(a, b) => b.similarity_score - a.similarity_score]. *)
Definition byScore (a b : scored) : number := Fin (snd b - snd a)%Q.

Definition findAlternatives (db : Database) (materialName : string)
    (dimensions : option DimensionsArg) : promise (list Alternative) :=
  match get_by_name db materialName with
  | SqlError err => Rejected err
  | Rows None => Resolved []
  | Rows (Some originalMaterial) =>
      match all_except db (id originalMaterial) with
      | SqlError err => Rejected err
      | Rows materials =>
          let scoredAlternatives :=
            JsArray.sort byScore (score materials originalMaterial) in
          let topAlternatives := firstn 5 scoredAlternatives in
          Resolved
            (map (fun alt =>
                    mkAlternative (fst alt) (snd alt)
                      (compareMaterials originalMaterial (fst alt) dimensions))
                 topAlternatives)
      end
  end.

End Recommender.


(* ================================================================== *)
(** ** processFile *)
(* ================================================================== *)

Module Pipeline.
Import Extractor Db Calculator Recommender.

(** The uploaded file as its two readers see it: the bytes [fs.readSync]
    delivers from its start ([None] when the open or the read throws), and
    the lines and final event [readline] delivers. *)
Record UploadedFile : Type := mkFile {
  header : option string;
  lines : list string;
  ending : stream_end
}.

(** [buffer[i]] in the zero-filled 84-byte buffer. *)
Definition byteAt (i : nat) (buffer : string) : N :=
  match String.get i buffer with
  | Some c => N_of_ascii c
  | None => 0%N
  end.

Definition readUInt32LE (offset : nat) (buffer : string) : N :=
  (byteAt offset buffer
   + 256 * byteAt (offset + 1) buffer
   + 65536 * byteAt (offset + 2) buffer
   + 16777216 * byteAt (offset + 3) buffer)%N.

(** [!buffer.toString('utf8', 0, 5).includes('solid')]: five bytes decode
    to at most five characters, so they contain [solid] only by being it. *)
Definition isBinary (buffer : string) : bool := negb (prefix "solid" buffer).

Definition product (d : Dim.t) : number :=
  (Dim.length d * Dim.width d * Dim.height d)%num.

(** The variables [processFile] holds when its [switch] is over. *)
Record Measured : Type := mkMeasured {
  m_dimensions : Dim.t;
  m_volume : number;
  m_material : string;
  m_annotations : list string
}.

Definition defaultMaterial : string := "AISI 1018 Steel".

Definition defaultAnnotations : list string :=
  ["Note: Surface finish Ra 1.6"; "Heat treatment: Normalized"].

(** ['±0.1mm on critical dimensions'], with its plus-minus sign (U+00B1). *)
Definition defaultTolerances : list string :=
  [String (ascii_of_nat 177) "0.1mm on critical dimensions"].

Definition box (l w h : Q) : Dim.t := Dim.mk (Fin l) (Fin w) (Fin h).

Definition fixedMeasure (d : Dim.t) : Measured :=
  mkMeasured d (product d) defaultMaterial defaultAnnotations.

(** The [switch (fileExtension)] of [processFile]; what the [catch] blocks
    log is left out. *)
Definition measure (file : UploadedFile) (fileExtension : string) : Measured :=
  if String.eqb fileExtension "stl" then
    let dimensions := box 120 80 40 in
    match header file with
    | Some buffer =>
        if isBinary buffer && (1000 <? readUInt32LE 80 buffer)%N
        then mkMeasured dimensions (product dimensions * Fin 1.2)%num
                        defaultMaterial defaultAnnotations
        else fixedMeasure dimensions
    | None => fixedMeasure dimensions
    end
  else if String.eqb fileExtension "step" || String.eqb fileExtension "stp" then
    match parseStepFile (lines file) (ending file) with
    | Resolved stepData =>
        let dimensions := sd_dimensions stepData in
        mkMeasured dimensions (product dimensions)
                   (if is_empty (sd_material stepData) then defaultMaterial
                    else sd_material stepData)
                   (sd_annotations stepData)
    | Rejected _ => fixedMeasure (box 30 20 5)
    end
  else if String.eqb fileExtension "dxf" then fixedMeasure (box 200 100 10)
  else if String.eqb fileExtension "dwg" then fixedMeasure (box 180 90 15)
  else if String.eqb fileExtension "pdf" then fixedMeasure (box 210 297 5)
  else fixedMeasure (box 100 50 25).

Record Processed : Type := mkProcessed {
  p_dimensions : Dim.t;
  p_volume : number;
  p_material : string;
  p_weight : number;
  p_cost : number;
  p_alternatives : list Alternative;
  p_annotations : list string;
  p_tolerances : list string
}.

Definition processFile (db : Database) (file : UploadedFile)
    (fileExtension : string) : promise Processed :=
  let m := measure file fileExtension in
  match calculateWeight db (m_material m) (JNum (m_volume m)) with
  | Rejected err => Rejected err
  | Resolved weight =>
      match calculateCost db (m_material m) (JNum weight) with
      | Rejected err => Rejected err
      | Resolved cost =>
          match findAlternatives db (m_material m) (ofDimensions (m_dimensions m)) with
          | Rejected err => Rejected err
          | Resolved alternatives =>
              Resolved (mkProcessed (m_dimensions m) (m_volume m) (m_material m)
                                    weight cost alternatives (m_annotations m)
                                    defaultTolerances)
          end
      end
  end.

End Pipeline.

(* ================================================================== *)
(** ** The preview drawings: generateStepPreview, generateWasherSvg *)
(* ================================================================== *)

Module Preview.
Import Extractor.

(** The canvas of [generateStepPreview]. *)
Definition width : number := Fin 400.
Definition height : number := Fin 300.
Definition padding : number := Fin 40.

Local Open Scope num_scope.

Definition modelWidth (bbox : BoundingBox) : number :=
  let '(n0, _, _) := box_min bbox in
  let '(x0, _, _) := box_max bbox in x0 - n0.

Definition modelHeight (bbox : BoundingBox) : number :=
  let '(_, n1, _) := box_min bbox in
  let '(_, x1, _) := box_max bbox in x1 - n1.

(** [Math.min(scaleX, scaleY)]. *)
Definition scale (bbox : BoundingBox) : number :=
  min ((width - padding * Fin 2) / modelWidth bbox)
      ((height - padding * Fin 2) / modelHeight bbox).

Definition transformX (bbox : BoundingBox) (x : number) : number :=
  let '(n0, _, _) := box_min bbox in
  padding + (x - n0) * scale bbox.

Definition transformY (bbox : BoundingBox) (y : number) : number :=
  let '(_, n1, _) := box_min bbox in
  height - padding - (y - n1) * scale bbox.

(** The numbers [generateWasherSvg] computes and prints into its template. *)
Record WasherDrawing : Type := mkWasher {
  outerDiameter : number;
  innerDiameter : number;
  centerX : number;
  centerY : number;
  washerScale : number;
  scaledOuterRadius : number;
  scaledInnerRadius : number;
  holeRadius : number;
  holeDistance : number
}.

Definition washerDrawing (radii : list number) (name : string)
    (width height : number) : WasherDrawing :=
  let sortedCircles := JsArray.sort (fun a b => b - a) radii in
  let outerRadius :=
    match sortedCircles with
    | r :: _ => if truthy r then r else Fin 15
    | [] => Fin 15
    end in
  let innerRadius :=
    match sortedCircles with
    | _ :: r :: _ => r
    | _ => outerRadius * Fin 0.6
    end in
  let literal := includes name "Rondelleintercloche" in
  let outerDiameter := if literal then Fin 30 else outerRadius * Fin 2 in
  let innerDiameter := if literal then Fin 15 else innerRadius * Fin 2 in
  let scale := (min width height - Fin 80) / outerDiameter in
  let scaledOuterRadius := (outerDiameter / Fin 2) * scale in
  let scaledInnerRadius := (innerDiameter / Fin 2) * scale in
  mkWasher outerDiameter innerDiameter (width / Fin 2) (height / Fin 2) scale
           scaledOuterRadius scaledInnerRadius
           (Fin 3 * scale) (scaledOuterRadius * Fin 0.7).

End Preview.
(* ================================================================== *)
(** ** Vocabulary of the statements *)
(* ================================================================== *)

Module Spec.
Import Extractor Db Recommender.

(** The text the scanner has accumulated after [lines]: every line followed
    by a line feed. *)
Fixpoint fullText (lines : list string) : string :=
  match lines with
  | [] => ""
  | l :: ls => l ++ newline ++ fullText ls
  end.

(** The first three coordinates of a recorded point are finite numbers. *)
Definition finitePoint (coords : list number) : Prop :=
  finite (coord coords 0) /\ finite (coord coords 1) /\ finite (coord coords 2).

(** The bounding box a list of points produces from the initial one. *)
Definition boxOf (points : list (list number)) : BoundingBox :=
  fold_left updateBox points initialBox.

(** The scanner's box is the box of the points it has recorded. *)
Definition boxTracksPoints (st : ScanState) : Prop :=
  boundingBox st = boxOf (cartesianPoints st).

(** The invariant of a bounding box: unset, or finite with [min <= max] on
    every axis. *)
Definition soundBox (bb : BoundingBox) : Prop :=
  bb = initialBox \/
  exists n0 n1 n2 x0 x1 x2 : Q,
    bb = mkBox (Fin n0, Fin n1, Fin n2) (Fin x0, Fin x1, Fin x2) /\
    (n0 <= x0 /\ n1 <= x1 /\ n2 <= x2)%Q.

(** An extent that is a number: infinite or finite, and then not negative. *)
Definition extent (e : number) : Prop :=
  match e with
  | PInf => True
  | Fin q => (0 <= q)%Q
  | _ => False
  end.

Definition notNaN (e : number) : Prop := isNaN e = false.

(** Material inference as the specification words it: steel/acier, then
    aluminum/aluminium, then titanium/titane, else the default steel. *)
Definition specMaterialInference (content : string) : string :=
  let text := toLowerCase content in
  if includes text "steel" || includes text "acier" then "AISI 1018 Steel"
  else if includes text "aluminum" || includes text "aluminium" then "Aluminum 6061-T6"
  else if includes text "titanium" || includes text "titane" then "Ti-6Al-4V"
  else "AISI 1018 Steel".

Definition optional {A : Type} (o : option A) : list A :=
  match o with Some a => [a] | None => [] end.

(** Every Delta of a comparison. *)
Definition deltas (c : Comparison) : list Delta :=
  [cmp_weight c; cmp_cost c]
    ++ optional (cmp_tensile_strength c)
    ++ optional (cmp_yield_strength c)
    ++ optional (cmp_elastic_modulus c).

(** The comparator [(a, b) => key(b) - key(a)]. *)
Definition comparatorOf {A : Type} (key : A -> Q) (a b : A) : number :=
  Fin (key b - key a)%Q.

(** Falling keys. *)
Definition descendingBy {A : Type} (key : A -> Q) (a b : A) : Prop :=
  (key b <= key a)%Q.

(** The members of a list whose key equals [s], in their order. *)
Definition keyedBy {A : Type} (key : A -> Q) (s : Q) (l : list A) : list A :=
  filter (fun c => Qeq_bool (key c) s) l.

(** Descending by score. *)
Definition byScoreDescending : scored -> scored -> Prop := descendingBy snd.

(** The members of a scored list whose score equals [s]. *)
Definition withScore : Q -> list scored -> list scored := keyedBy snd.

(** The candidates of a reference row, in catalog order. *)
Definition candidates (table : list MaterialRecord) (reference : MaterialRecord)
    : list scored :=
  score (filter (fun r => negb (Z.eqb (id r) (id reference))) table) reference.

Definition ranked (a : Alternative) : scored := (material a, similarity_score a).

(** A dimension that is present and nonzero: a number, and not 0. *)
Definition usable (o : option number) (x : number) : Prop :=
  o = Some x /\ isNaN x = false /\ (x =? Fin 0)%num = false.

(** A dimension that is absent or zero; NaN, which is no number, counts as
    absent. *)
Definition unusable (o : option number) : Prop :=
  match o with
  | None => True
  | Some x => (x =? Fin 0)%num = true \/ isNaN x = true
  end.

Definition zeroDimensions : option DimensionsArg :=
  Some (mkArg (Some (Fin 0)) (Some (Fin 0)) (Some (Fin 0))).

(** A point lies in a box: on each of the three axes its coordinate is
    between the bounds. *)
Definition encloses (bb : BoundingBox) (coords : list number) : Prop :=
  let '(n0, n1, n2) := box_min bb in
  let '(x0, x1, x2) := box_max bb in
  ((n0 <=? coord coords 0) = true /\ (coord coords 0 <=? x0) = true /\
   (n1 <=? coord coords 1) = true /\ (coord coords 1 <=? x1) = true /\
   (n2 <=? coord coords 2) = true /\ (coord coords 2 <=? x2) = true)%num.

(** A number that is never below 0: NaN, or at least 0. *)
Definition unsignedOrNaN (r : number) : Prop :=
  isNaN r = true \/ (r >=? Fin 0)%num = true.

(** The annular override replaces length and width by the outer diameter: a
    point was found, the part is a washer, and its name lacks the literal
    that selects the fixed dimensions. *)
Definition annularOverride (data : StepData) : bool :=
  foundPoints (sd_boundingBox data)
  && isWasher (sd_circles data) (sd_productName data)
  && negb (includes (sd_productName data) "Rondelleintercloche").

End Spec.

(** Concrete streams and requests the statements are evaluated on. *)
Module Examples.
Import Extractor Db Recommender.

(** A washer named by the literal the close handler looks for. *)
Definition literalWasher : list string :=
  [ "PRODUCT('Rondelleintercloche5mm')";
    "CARTESIAN_POINT(0,0,0)";
    "CARTESIAN_POINT(40,40,2)";
    "CIRCLE(c),10" ].

(** A washer whose file holds circles and no point. *)
Definition pointlessWasher : list string :=
  [ "PRODUCT('rondelle plate')"; "CIRCLE(c),10" ].

(** A washer with the two radii of the specification's example. *)
Definition plainWasher : list string :=
  [ "PRODUCT('Rondelle plate M30')";
    "CARTESIAN_POINT(0,0,0)";
    "CARTESIAN_POINT(40,40,2)";
    "CIRCLE(c),15";
    "CIRCLE(c),7.5" ].

(** A thick washer: the point cloud is a cube of side 10, the circle has
    radius 1. *)
Definition thickWasher : list string :=
  [ "PRODUCT('rondelle')";
    "CARTESIAN_POINT(0,0,0)";
    "CARTESIAN_POINT(10,10,10)";
    "CIRCLE(c),1" ].

(** The thick washer with a circle whose radius text is a lone point, which
    is no number. *)
Definition dotWasher : list string :=
  [ "PRODUCT('rondelle')";
    "CARTESIAN_POINT(0,0,0)";
    "CARTESIAN_POINT(10,10,10)";
    "CIRCLE(c),." ].

(** Two point records the way STEP files write them. *)
Definition stepPoints : list string :=
  [ "#1=CARTESIAN_POINT('',(1.,2.,3.));";
    "#2=CARTESIAN_POINT('',(4.,8.,13.));" ].

Definition block : list string :=
  [ "CARTESIAN_POINT(0,0,0)"; "CARTESIAN_POINT(1,20,3)" ].

Definition steelAndAluminum : list string :=
  [ "DESCRIPTION stainless steel bolts, aluminum housing" ].

Definition titane : list string :=
  [ "DESCRIPTION piece en titane grade 5" ].

(** A point line whose first coordinate is no number, between two sound
    point lines. *)
Definition malformedLine : string := "CARTESIAN_POINT(abc,1,2)".

Definition corrupted : list string :=
  [ "CARTESIAN_POINT(0,0,0)"; malformedLine; "CARTESIAN_POINT(5,4,3)" ].

Definition uncorrupted : list string :=
  [ "CARTESIAN_POINT(0,0,0)"; "CARTESIAN_POINT(5,4,3)" ].

Definition boxDimensions : option DimensionsArg :=
  Some (mkArg (Some (Fin 100)) (Some (Fin 50)) (Some (Fin 25))).

Definition catalog : Database := sqlite insertDefaultMaterials.

(** A database whose every query fails. *)
Definition brokenDb : Database :=
  mkDb (fun _ => SqlError "SQLITE_CANTOPEN") (fun _ => SqlError "SQLITE_CANTOPEN").

(** A row whose density is 0. *)
Definition vacuum : MaterialRecord :=
  mkMaterial 1 "Vacuum" "None" 0 1 None None None None None None None None None None.

Definition steel1018 : MaterialRecord := nth 0 insertDefaultMaterials (mkMaterial 0 "" "" 0 0 None None None None None None None None None None).

Definition aluminum6061 : MaterialRecord := nth 4 insertDefaultMaterials steel1018.

(** A drawing exchanged as a STEP file: every point lies in the plane
    z = 0. *)
Definition flatPart : list string :=
  [ "CARTESIAN_POINT(0,0,0)"; "CARTESIAN_POINT(10,5,0)" ].

Definition stepUpload (stream : list string) : Pipeline.UploadedFile :=
  Pipeline.mkFile None stream Close.

Definition unreadable : Pipeline.UploadedFile :=
  Pipeline.mkFile None [] (ReadError "EIO").

End Examples.

Import Extractor Db Calculator Recommender Spec Examples.

Unset Implicit Arguments.

(* ================================================================== *)
(** ** Facts about numbers *)
(* ================================================================== *)

Section NumberFacts.

Lemma Qsgn_spec (q : Q) :
  (Qsgn q = Eq /\ q == 0) \/ (Qsgn q = Lt /\ q < 0) \/ (Qsgn q = Gt /\ 0 < q).
Proof.
  unfold Qsgn. destruct (Qcompare_spec q 0); auto.
Qed.

Lemma ltb_Fin (p q : Q) : (Fin p <? Fin q)%num = true <-> p < q.
Proof.
  simpl. destruct (Qcompare_spec p q); split; intro; try discriminate; auto; lra.
Qed.

Lemma eqb_Fin (p q : Q) : (Fin p =? Fin q)%num = true <-> p == q.
Proof. simpl. apply Qeq_bool_iff. Qed.

Lemma geb_Fin (p q : Q) : (Fin p >=? Fin q)%num = true <-> q <= p.
Proof.
  unfold geb, leb. rewrite orb_true_iff, ltb_Fin, eqb_Fin. split.
  - intros [H | H]; lra.
  - intro H. destruct (Qlt_le_dec q p); [left | right]; lra.
Qed.

Lemma max_Fin (p q : Q) : max (Fin p) (Fin q) = Fin (if Qltb p q then q else p).
Proof.
  unfold max, ltb, Qltb. destruct (p ?= q)%Q; reflexivity.
Qed.

Lemma min_Fin (p q : Q) : min (Fin p) (Fin q) = Fin (if Qltb q p then q else p).
Proof.
  unfold min, ltb, Qltb. destruct (q ?= p)%Q; reflexivity.
Qed.

Lemma Qltb_spec (p q : Q) : BoolSpec (p < q) (q <= p) (Qltb p q).
Proof.
  unfold Qltb. destruct (Qcompare_spec p q); constructor; lra.
Qed.

End NumberFacts.

(* ================================================================== *)
(** ** The feature extractor *)
(* ================================================================== *)

Section ExtractorFacts.

Lemma parseStepFile_close (lines : list string) (data : StepData) :
  parseStepFile lines Close = Resolved data -> data = onClose (scan lines).
Proof. simpl. intro H. injection H as H. now subst. Qed.

(** The outer diameter of the washer whose circles have radii 15 and 7.5. *)
Lemma outer_diameter_15 (radii : list number) :
  Forall2 same radii [Fin 15; Fin 7.5] ->
  (max_list radii * Fin 2 == Fin 30)%num.
Proof.
  intro H.
  inversion H as [| a a' l l' Ha Hl]; subst.
  inversion Hl as [| b b' m m' Hb Hm]; subst.
  inversion Hm; subst.
  destruct a as [| | | p]; simpl in Ha; try contradiction.
  destruct b as [| | | q]; simpl in Hb; try contradiction.
  unfold max_list. cbn [fold_left].
  change (max NInf (Fin p)) with (Fin p).
  rewrite max_Fin. unfold Qltb.
  destruct (Qcompare_spec p q); simpl; lra.
Qed.

(** C1 (as amended).  When the scan found circles and the lower-cased
    product name contains [rondelle]: with points found and a name that
    does not contain the literal [Rondelleintercloche], length and width
    are twice the largest radius and height is the third sorted extent of
    the box; with that literal the dimensions are 30, 30, 5; with no point
    found they are the default 30, 30, 5.  With radii 15 and 7.5 length and
    width are 30 whatever the points. *)
Theorem annular_override_dimensions :
  forall (lines : list string) (data : StepData),
    parseStepFile lines Close = Resolved data ->
    isWasher (sd_circles data) (sd_productName data) = true ->
    let d := sd_dimensions data in
    let box := sd_boundingBox data in
    let outer := (max_list (sd_circles data) * Fin 2)%num in
    (foundPoints box = true ->
     includes (sd_productName data) "Rondelleintercloche" = false ->
     Dim.length d = outer /\ Dim.width d = outer /\
     Dim.height d = nth 2 (sortedExtents box) NaN) /\
    (foundPoints box = true ->
     includes (sd_productName data) "Rondelleintercloche" = true ->
     d = Dim.mk (Fin 30) (Fin 30) (Fin 5)) /\
    (foundPoints box = false -> d = defaultDimensions) /\
    (Forall2 same (sd_circles data) [Fin 15; Fin 7.5] ->
     (Dim.length d == Fin 30)%num /\ (Dim.width d == Fin 30)%num).
Proof.
  intros lines data Hrun Hwasher d box outer.
  apply parseStepFile_close in Hrun. subst data.
  subst d box outer. simpl sd_dimensions. simpl sd_boundingBox.
  simpl sd_circles in *. simpl sd_productName in *.
  set (st := scan lines) in *.
  unfold closeDimensions. rewrite Hwasher.
  destruct (foundPoints (boundingBox st));
    destruct (includes (productName st) "Rondelleintercloche");
    (split; [| split; [| split]]); try (intros; discriminate);
    try (intros; simpl; auto; fail).
  - intros Hradii. simpl. split; reflexivity.
  - intros Hradii. simpl. split; now apply outer_diameter_15.
  - intros Hradii. simpl. split; reflexivity.
  - intros Hradii. simpl. split; reflexivity.
Qed.

(** The literal washer of the example file and the washer without points:
    length is not twice the largest radius, and the height of the first is
    not the third extent of its box. *)
Lemma annular_override_counterexample :
  let data := onClose (scan literalWasher) in
  let bare := onClose (scan pointlessWasher) in
  parseStepFile literalWasher Close = Resolved data /\
  isWasher (sd_circles data) (sd_productName data) = true /\
  sd_circles data = [Fin 10] /\
  sd_dimensions data = Dim.mk (Fin 30) (Fin 30) (Fin 5) /\
  nth 2 (sortedExtents (sd_boundingBox data)) NaN = Fin 2 /\
  ~ (Dim.length (sd_dimensions data) == max_list (sd_circles data) * Fin 2)%num /\
  ~ (Dim.height (sd_dimensions data)
     == nth 2 (sortedExtents (sd_boundingBox data)) NaN)%num /\
  parseStepFile pointlessWasher Close = Resolved bare /\
  isWasher (sd_circles bare) (sd_productName bare) = true /\
  sd_dimensions bare = Dim.mk (Fin 30) (Fin 30) (Fin 5) /\
  ~ (Dim.length (sd_dimensions bare) == max_list (sd_circles bare) * Fin 2)%num.
Proof.
  vm_compute. repeat split; try reflexivity; intro H; discriminate H.
Qed.

Lemma annular_override_witness :
  let data := onClose (scan plainWasher) in
  isWasher (sd_circles data) (sd_productName data) = true /\
  foundPoints (sd_boundingBox data) = true /\
  Dim.length (sd_dimensions data) = (max_list (sd_circles data) * Fin 2)%num /\
  (Dim.length (sd_dimensions data) == Fin 30)%num /\
  (Dim.width (sd_dimensions data) == Fin 30)%num /\
  Dim.height (sd_dimensions data) = Fin 2.
Proof.
  pose proof (annular_override_dimensions plainWasher _ eq_refl eq_refl) as H.
  cbv zeta in H. destruct H as (Hplain & _ & _ & Hradii).
  destruct (Hplain eq_refl eq_refl) as (Hl & _ & Hh).
  assert (Hsame : Forall2 same (sd_circles (onClose (scan plainWasher)))
                          [Fin 15; Fin 7.5]).
  { vm_compute. repeat constructor. }
  destruct (Hradii Hsame) as (H30 & W30).
  cbv zeta. split; [reflexivity |]. split; [reflexivity |].
  split; [exact Hl |]. split; [exact H30 |]. split; [exact W30 |].
  rewrite Hh. reflexivity.
Defined.

(** *** The bounding box follows the recorded points *)

Lemma boxOf_snoc (points : list (list number)) (coords : list number) :
  boxOf (points ++ [coords]) = updateBox (boxOf points) coords.
Proof. unfold boxOf. now rewrite fold_left_app. Qed.

Lemma onLine_tracks (st : ScanState) (line : string) :
  boxTracksPoints st -> boxTracksPoints (onLine st line).
Proof.
  unfold boxTracksPoints, onLine. intro H.
  destruct (includes line "CARTESIAN_POINT"); [| exact H].
  destruct (first_group line) as [coordStr |]; [| exact H].
  destruct (3 <=? List.length (parseCoords coordStr))%nat; [| exact H].
  cbn [boundingBox cartesianPoints]. now rewrite boxOf_snoc, H.
Qed.

Lemma fold_onLine_tracks (lines : list string) :
  forall st, boxTracksPoints st -> boxTracksPoints (fold_left onLine lines st).
Proof.
  induction lines as [| l ls IH]; intros st H; simpl; auto using onLine_tracks.
Qed.

Lemma scan_tracks (lines : list string) : boxTracksPoints (scan lines).
Proof. apply fold_onLine_tracks. reflexivity. Qed.

Lemma updateBox_sound (bb : BoundingBox) (coords : list number) :
  soundBox bb -> finitePoint coords -> soundBox (updateBox bb coords).
Proof.
  unfold finitePoint, updateBox.
  destruct (coord coords 0) as [| | | a]; try (intros _ (F & _); contradiction).
  destruct (coord coords 1) as [| | | b]; try (intros _ (_ & F & _); contradiction).
  destruct (coord coords 2) as [| | | c]; try (intros _ (_ & _ & F); contradiction).
  intros [-> | (n0 & n1 & n2 & x0 & x1 & x2 & -> & H0 & H1 & H2)] _; right.
  - exists a, b, c, a, b, c. cbn. repeat split; lra.
  - cbn [box_min box_max]. rewrite !min_Fin, !max_Fin.
    do 6 eexists. split; [reflexivity |].
    destruct (Qltb_spec a n0), (Qltb_spec x0 a),
             (Qltb_spec b n1), (Qltb_spec x1 b),
             (Qltb_spec c n2), (Qltb_spec x2 c); repeat split; lra.
Qed.

Lemma boxOf_sound (points : list (list number)) :
  Forall finitePoint points -> soundBox (boxOf points).
Proof.
  induction points as [| coords points IH] using rev_ind; intro H.
  - now left.
  - apply Forall_app in H as [Hpoints Hlast].
    rewrite boxOf_snoc. apply updateBox_sound; auto.
    now inversion Hlast.
Qed.

(** *** Sorting three extents *)

Lemma abs_extent (x : number) : notNaN (abs x) -> extent (abs x).
Proof.
  destruct x as [| | | q]; cbn; try discriminate; auto.
  intros _. apply Qabs_nonneg.
Qed.

Lemma extent_geb_0 (x : number) : extent x <-> (x >=? Fin 0)%num = true.
Proof.
  destruct x as [| | | q]; cbn [extent]; try (split; [intros [] | discriminate]).
  - split; reflexivity || auto.
  - symmetry. apply geb_Fin.
Qed.

Lemma extent_geb_refl (x : number) : extent x -> (x >=? x)%num = true.
Proof.
  destruct x as [| | | q]; cbn [extent]; try contradiction; intro H.
  - reflexivity.
  - apply geb_Fin. lra.
Qed.

Lemma sort_three_extents (a b c : number) :
  extent a -> extent b -> extent c ->
  exists p q r : number,
    JsArray.sort (fun x y => (y - x)%num) [a; b; c] = [p; q; r] /\
    (p >=? q)%num = true /\ (q >=? r)%num = true /\ (r >=? Fin 0)%num = true /\
    (p >=? Fin 0)%num = true /\ (q >=? Fin 0)%num = true.
Proof.
  destruct a as [| | | a], b as [| | | b], c as [| | | c];
    cbn [extent]; try contradiction; intros Ha Hb Hc;
    cbv [JsArray.sort fold_left JsArray.insert JsArray.after sub neg add ltb];
    repeat (match goal with
            | |- context [Qcompare ?x ?y] => destruct (Qcompare_spec x y)
            end; cbv beta iota);
    do 3 eexists; (split; [reflexivity |]);
    repeat split; try reflexivity; apply geb_Fin; lra.
Qed.

(** The sorted extents of a box none of whose extents is NaN. *)
Lemma sortedExtents_ordered (bb : BoundingBox) :
  Forall notNaN (rawExtents bb) ->
  exists p q r : number,
    sortedExtents bb = [p; q; r] /\
    (p >=? q)%num = true /\ (q >=? r)%num = true /\ (r >=? Fin 0)%num = true /\
    (p >=? Fin 0)%num = true /\ (q >=? Fin 0)%num = true.
Proof.
  intro Hextents. unfold sortedExtents. unfold rawExtents in *.
  destruct (box_min bb) as [[n0 n1] n2], (box_max bb) as [[x0 x1] x2].
  inversion Hextents as [| e0 l0 H0 Hrest]; subst.
  inversion Hrest as [| e1 l1 H1 Hrest']; subst.
  inversion Hrest' as [| e2 l2 H2 _]; subst.
  exact (sort_three_extents _ _ _ (abs_extent _ H0) (abs_extent _ H1)
           (abs_extent _ H2)).
Qed.

Lemma closeDimensions_canonical (bb : BoundingBox) (radii : list number)
    (name : string) :
  Forall notNaN (rawExtents bb) -> isWasher radii name = false ->
  let d := closeDimensions bb radii name in
  (Dim.length d >=? Dim.width d)%num = true /\
  (Dim.width d >=? Dim.height d)%num = true /\
  (Dim.height d >=? Fin 0)%num = true.
Proof.
  intros Hextents Hwasher. unfold closeDimensions. rewrite Hwasher.
  destruct (foundPoints bb); [| vm_compute; auto].
  destruct (sortedExtents_ordered bb Hextents)
    as (p & q & r & -> & Hpq & Hqr & Hr & _).
  cbn [nth Dim.length Dim.width Dim.height]. auto.
Qed.

Lemma soundBox_extents (bb : BoundingBox) :
  soundBox bb -> Forall notNaN (rawExtents bb).
Proof.
  intros [-> | (n0 & n1 & n2 & x0 & x1 & x2 & -> & _)];
    repeat constructor.
Qed.

(** No extent is NaN when every recorded point has finite coordinates: the
    box is then unset, or finite with [min <= max] on every axis. *)
Lemma finite_points_sound_box (lines : list string) :
  Forall finitePoint (cartesianPoints (scan lines)) ->
  soundBox (boundingBox (scan lines)) /\
  Forall notNaN (rawExtents (boundingBox (scan lines))).
Proof.
  intro Hpoints.
  assert (Hbox : soundBox (boundingBox (scan lines))).
  { rewrite (scan_tracks lines). now apply boxOf_sound. }
  split; [exact Hbox | now apply soundBox_extents].
Qed.

(** The same order for the scans whose recorded points are all finite. *)
Lemma canonical_dimensions_finite_points (lines : list string) :
  isWasher (circles (scan lines)) (productName (scan lines)) = false ->
  Forall finitePoint (cartesianPoints (scan lines)) ->
  let d := sd_dimensions (onClose (scan lines)) in
  (Dim.length d >=? Dim.width d)%num = true /\
  (Dim.width d >=? Dim.height d)%num = true /\
  (Dim.height d >=? Fin 0)%num = true.
Proof.
  intros Hwasher Hpoints. cbn [sd_dimensions onClose].
  apply closeDimensions_canonical; [| exact Hwasher].
  now apply finite_points_sound_box.
Qed.

(** The thick washer comes out as 2, 2, 10: its width is below its height.
    The point records of a STEP file come out with a NaN length, which is
    not at least the width; so does a washer one of whose radii is no
    number. *)
Lemma canonical_dimensions_counterexample :
  let washer := onClose (scan thickWasher) in
  let step := onClose (scan stepPoints) in
  let dot := onClose (scan dotWasher) in
  parseStepFile thickWasher Close = Resolved washer /\
  sd_dimensions washer = Dim.mk (Fin 2) (Fin 2) (Fin 10) /\
  (Dim.width (sd_dimensions washer) >=? Dim.height (sd_dimensions washer))%num = false /\
  parseStepFile stepPoints Close = Resolved step /\
  sd_dimensions step = Dim.mk NaN (Fin 6) (Fin 3) /\
  (Dim.length (sd_dimensions step) >=? Dim.width (sd_dimensions step))%num = false /\
  parseStepFile dotWasher Close = Resolved dot /\
  sd_dimensions dot = Dim.mk NaN NaN (Fin 10) /\
  (Dim.length (sd_dimensions dot) >=? Dim.width (sd_dimensions dot))%num = false.
Proof.
  vm_compute. repeat split; reflexivity.
Qed.

(** *** Material inference *)

Lemma string_app_assoc (a b c : string) : (a ++ b) ++ c = a ++ b ++ c.
Proof. induction a as [| ch a IH]; simpl; [reflexivity | now rewrite IH]. Qed.

Lemma string_app_nil_r (a : string) : a ++ "" = a.
Proof. induction a as [| ch a IH]; simpl; [reflexivity | now rewrite IH]. Qed.

Lemma fileContent_onLine (st : ScanState) (line : string) :
  fileContent (onLine st line) = fileContent st ++ line ++ newline.
Proof.
  unfold onLine.
  destruct (if includes line "CARTESIAN_POINT" then _ else _) as [points box].
  reflexivity.
Qed.

Lemma fold_onLine_fileContent (lines : list string) :
  forall st,
    fileContent (fold_left onLine lines st) = fileContent st ++ fullText lines.
Proof.
  induction lines as [| l ls IH]; intro st; simpl.
  - now rewrite string_app_nil_r.
  - rewrite IH, fileContent_onLine, !string_app_assoc. reflexivity.
Qed.

Lemma scan_fileContent (lines : list string) :
  fileContent (scan lines) = fullText lines.
Proof. unfold scan. now rewrite fold_onLine_fileContent. Qed.

(** The search the close handler runs when no line set a material hint, on
    the lower-cased full text: [acier] gives the default steel; otherwise
    [aluminium] or [aluminum] gives the aluminum alloy; otherwise
    [titanium] or [titane] gives the titanium alloy; otherwise the default
    steel. *)
Lemma closeMaterial_search_order :
  forall (lines : list string) (data : StepData),
    parseStepFile lines Close = Resolved data ->
    materialInfo (scan lines) = "" ->
    let text := toLowerCase (fullText lines) in
    (includes text "acier" = true -> sd_material data = "AISI 1018 Steel") /\
    (includes text "acier" = false ->
     includes text "aluminium" || includes text "aluminum" = true ->
     sd_material data = "Aluminum 6061-T6") /\
    (includes text "acier" = false ->
     includes text "aluminium" || includes text "aluminum" = false ->
     includes text "titanium" || includes text "titane" = true ->
     sd_material data = "Ti-6Al-4V") /\
    (includes text "acier" = false ->
     includes text "aluminium" || includes text "aluminum" = false ->
     includes text "titanium" || includes text "titane" = false ->
     sd_material data = "AISI 1018 Steel").
Proof.
  intros lines data Hrun Hhint text.
  apply parseStepFile_close in Hrun. subst data.
  cbn [sd_material onClose]. unfold closeMaterial.
  rewrite Hhint, scan_fileContent. fold text. cbn [is_empty negb].
  repeat split; intros; repeat match goal with H : _ = _ |- _ => rewrite H end;
    reflexivity.
Qed.

Lemma closeMaterial_search_order_titane :
  let data := onClose (scan titane) in
  materialInfo (scan titane) = "" /\
  includes (toLowerCase (fullText titane)) "acier" = false /\
  sd_material data = "Ti-6Al-4V".
Proof.
  pose proof (closeMaterial_search_order titane _ eq_refl eq_refl) as H.
  cbv zeta in H. destruct H as (_ & _ & Hti & _).
  cbv zeta. split; [reflexivity |]. split; [reflexivity |].
  apply Hti; reflexivity.
Defined.

(** C3.  The first test of the close handler looks for [acier] alone, where
    the two tests after it look for both spellings of their metal: the word
    [steel] is never searched for.  On the stream whose one line is
    [DESCRIPTION stainless steel bolts, aluminum housing] no line sets a
    hint and the text holds [steel] and [aluminum]; steel comes first in
    the order, yet the scan answers the aluminum alloy. *)
Theorem steel_token_not_searched :
  let data := onClose (scan steelAndAluminum) in
  let text := toLowerCase (fullText steelAndAluminum) in
  parseStepFile steelAndAluminum Close = Resolved data /\
  materialInfo (scan steelAndAluminum) = "" /\
  includes text "steel" = true /\
  includes text "acier" = false /\
  includes text "aluminum" = true /\
  specMaterialInference (fullText steelAndAluminum) = "AISI 1018 Steel" /\
  sd_material data = "Aluminum 6061-T6" /\
  sd_material data <> specMaterialInference (fullText steelAndAluminum).
Proof.
  vm_compute. repeat split; try reflexivity. intro H. discriminate H.
Qed.

(** *** Malformed lines *)

Lemma min_NaN_r (a : number) : min a NaN = NaN.
Proof. now destruct a. Qed.

Lemma max_NaN_r (a : number) : max a NaN = NaN.
Proof. now destruct a. Qed.

(** A point line with fewer than three comma-separated tokens leaves the
    box and the points as they were. *)
Lemma short_point_line_skipped (st : ScanState) (line : string) :
  (forall coordStr, first_group line = Some coordStr ->
                    (List.length (parseCoords coordStr) < 3)%nat) ->
  boundingBox (onLine st line) = boundingBox st /\
  cartesianPoints (onLine st line) = cartesianPoints st.
Proof.
  intro Hshort. unfold onLine.
  destruct (includes line "CARTESIAN_POINT"); [| now split].
  destruct (first_group line) as [coordStr |]; [| now split].
  specialize (Hshort coordStr eq_refl).
  apply Nat.leb_gt in Hshort. rewrite Hshort. now split.
Qed.

(** The scan ends in an error exactly when the read of the stream does. *)
Lemma parseStepFile_rejects_only_read_errors (lines : list string)
    (fin : stream_end) (err : string) :
  parseStepFile lines fin = Rejected err <-> fin = ReadError err.
Proof.
  destruct fin as [| e]; simpl; split; intro H; try discriminate.
  - now injection H as ->.
  - now injection H as ->.
Qed.

Lemma parseStepFile_resolves (lines : list string) :
  parseStepFile lines Close = Resolved (onClose (scan lines)).
Proof. reflexivity. Qed.

(** C4.  The line [CARTESIAN_POINT(abc,1,2)] is not skipped: its three
    tokens pass the length test, the point NaN, 1, 2 is recorded and NaN
    is written into the first axis of the box; the later sound point does
    not repair it, and the scan returns a NaN length where the same stream
    without the line returns 5, 4, 3. *)
Theorem malformed_point_line_not_skipped :
  (forall st : ScanState,
     let st' := onLine st malformedLine in
     cartesianPoints st' = (cartesianPoints st ++ [[NaN; Fin 1; Fin 2]])%list /\
     boundingBox st' = updateBox (boundingBox st) [NaN; Fin 1; Fin 2] /\
     fst (fst (box_min (boundingBox st'))) = NaN /\
     fst (fst (box_max (boundingBox st'))) = NaN) /\
  sd_boundingBox (onClose (scan corrupted))
  = mkBox (NaN, Fin 0, Fin 0) (NaN, Fin 4, Fin 3) /\
  sd_boundingBox (onClose (scan uncorrupted))
  = mkBox (Fin 0, Fin 0, Fin 0) (Fin 5, Fin 4, Fin 3) /\
  sd_dimensions (onClose (scan corrupted)) = Dim.mk NaN (Fin 4) (Fin 3) /\
  sd_dimensions (onClose (scan uncorrupted)) = Dim.mk (Fin 5) (Fin 4) (Fin 3).
Proof.
  split; [| vm_compute; repeat split; reflexivity].
  intros st st'.
  assert (Hpoint : cartesianPoints st'
                   = (cartesianPoints st ++ [[NaN; Fin 1; Fin 2]])%list
                   /\ boundingBox st'
                      = updateBox (boundingBox st) [NaN; Fin 1; Fin 2]).
  { subst st'. unfold onLine.
    change (includes malformedLine "CARTESIAN_POINT") with true.
    change (first_group malformedLine) with (Some "abc,1,2").
    replace (parseCoords "abc,1,2") with [NaN; Fin 1; Fin 2]
      by (vm_compute; reflexivity).
    cbn [List.length Nat.leb cartesianPoints boundingBox]. now split. }
  destruct Hpoint as (Hpoints & Hbox).
  repeat split; try assumption; rewrite Hbox; unfold updateBox;
    destruct (box_min (boundingBox st)) as [[n0 n1] n2];
    destruct (box_max (boundingBox st)) as [[x0 x1] x2];
    cbn [box_min box_max fst coord nth];
    [apply min_NaN_r | apply max_NaN_r].
Qed.

(** Once NaN is in the first axis of the box no later line removes it. *)
Lemma NaN_stays_in_box (lines : list string) :
  forall st,
    fst (fst (box_min (boundingBox st))) = NaN ->
    fst (fst (box_min (boundingBox (fold_left onLine lines st)))) = NaN.
Proof.
  induction lines as [| l ls IH]; intros st H; simpl; [exact H |].
  apply IH. unfold onLine.
  destruct (includes l "CARTESIAN_POINT"); [| exact H].
  destruct (first_group l) as [coordStr |]; [| exact H].
  destruct (3 <=? List.length (parseCoords coordStr))%nat; [| exact H].
  cbn [boundingBox]. unfold updateBox.
  destruct (box_min (boundingBox st)) as [[n0 n1] n2].
  destruct (box_max (boundingBox st)) as [[x0 x1] x2].
  cbn [box_min fst] in *. now subst n0.
Qed.

End ExtractorFacts.

(* ================================================================== *)
(** ** Weight, cost and comparison *)
(* ================================================================== *)

Section ComparisonFacts.

(** C5 (as amended).  A volume that [parseFloat] reads as NaN, or as a
    number that is at most 0, is rejected before the database is asked
    anything and before a weight, a cost or a comparison is computed: by
    [calculateWeight] with its own message, by the route with status 400,
    and by [processFile], which asks [calculateWeight] first and so never
    reaches the comparison of the alternatives with such a volume. *)
Theorem invalid_volume_rejected :
  forall (db : Database) (materialName : string) (volume : Calculator.jsvalue),
    isNaN (toFloat volume) = true \/ (toFloat volume <=? Fin 0)%num = true ->
    let message := if isNaN (toFloat volume) then "Invalid volume value"
                   else "Volume must be greater than zero" in
    calculateWeight db materialName volume = Rejected message /\
    (is_empty materialName = false ->
     recalculate db materialName volume
     = Failure 400 "Volume must be a positive number") /\
    (forall (file : Pipeline.UploadedFile) (fileExtension : string),
       Pipeline.m_volume (Pipeline.measure file fileExtension) = toFloat volume ->
       Pipeline.processFile db file fileExtension = Rejected message).
Proof.
  intros db materialName volume Hbad message.
  assert (Hweight : forall name v,
             toFloat v = toFloat volume ->
             calculateWeight db name v = Rejected message).
  { intros name v Hv. unfold calculateWeight. rewrite Hv. subst message.
    destruct (isNaN (toFloat volume)); [reflexivity |].
    destruct Hbad as [Hbad | Hbad]; [discriminate | now rewrite Hbad]. }
  split; [| split].
  - now apply Hweight.
  - intro Hname. unfold recalculate. rewrite Hname.
    destruct Hbad as [-> | ->]; [reflexivity | now rewrite orb_true_r].
  - intros file fileExtension Hvolume. unfold Pipeline.processFile.
    now rewrite (Hweight _ (JNum _) Hvolume).
Qed.

(** Both sides of the test: the text [abc] holds no number, and the flat
    part of a STEP drawing measures the volume 0. *)
Lemma invalid_volume_rejected_witness :
  isNaN (toFloat (JStr "abc")) = true /\
  calculateWeight brokenDb "AISI 1018 Steel" (JStr "abc")
  = Rejected "Invalid volume value" /\
  recalculate brokenDb "AISI 1018 Steel" (JStr "abc")
  = Failure 400 "Volume must be a positive number" /\
  (toFloat (JStr "0") <=? Fin 0)%num = true /\
  calculateWeight brokenDb "AISI 1018 Steel" (JStr "0")
  = Rejected "Volume must be greater than zero" /\
  recalculate brokenDb "AISI 1018 Steel" (JStr "0")
  = Failure 400 "Volume must be a positive number" /\
  Pipeline.m_volume (Pipeline.measure (stepUpload flatPart) "step")
  = toFloat (JStr "0") /\
  Pipeline.processFile catalog (stepUpload flatPart) "step"
  = Rejected "Volume must be greater than zero".
Proof.
  destruct (invalid_volume_rejected brokenDb "AISI 1018 Steel" (JStr "abc")
              (or_introl eq_refl)) as (Hnan & Hnan400 & _).
  destruct (invalid_volume_rejected brokenDb "AISI 1018 Steel" (JStr "0")
              (or_intror eq_refl)) as (Hzero & Hzero400 & _).
  destruct (invalid_volume_rejected catalog "AISI 1018 Steel" (JStr "0")
              (or_intror eq_refl)) as (_ & _ & Hupload).
  split; [reflexivity |]. split; [exact Hnan |].
  split; [exact (Hnan400 eq_refl) |]. split; [reflexivity |].
  split; [exact Hzero |]. split; [exact (Hzero400 eq_refl) |].
  split; [reflexivity |].
  exact (Hupload (stepUpload flatPart) "step" eq_refl).
Defined.

(** The text [12abc] is no number, yet [parseFloat] reads its prefix 12:
    the volume passes both tests and the recalculation answers the weight
    and the cost of the volume 12. *)
Lemma volume_validation_counterexample :
  toFloat (JStr "12abc") = Fin 12 /\
  calculateWeight catalog "AISI 1018 Steel" (JStr "12abc")
  = calculateWeight catalog "AISI 1018 Steel" (JNum (Fin 12)) /\
  recalculate catalog "AISI 1018 Steel" (JStr "12abc")
  = recalculate catalog "AISI 1018 Steel" (JNum (Fin 12)) /\
  match recalculate catalog "AISI 1018 Steel" (JStr "12abc") with
  | WeightAndCost weight cost =>
      (weight == Fin 7.87 * Fin 12 / Fin 1000000)%num /\
      (cost == weight * Fin 1.2)%num /\
      (Fin 0 <? weight)%num = true
  | Failure _ _ => False
  end.
Proof.
  vm_compute. repeat split; reflexivity.
Qed.

Lemma delta_invariant_one (orig alt : number) :
  let d := delta orig alt in
  difference d = (alternative d - original d)%num /\
  ((original d =? Fin 0)%num = false ->
   percent_change d = (difference d / original d * Fin 100)%num) /\
  ((original d =? Fin 0)%num = true -> percent_change d = Fin 0).
Proof.
  unfold delta. cbn [difference alternative original percent_change].
  repeat split; intros ->; reflexivity.
Qed.

(** C6.  Every Delta of a comparison (weight, cost and the mechanical
    properties present on both sides) has difference = alternative -
    original, and percent_change = difference / original * 100 when
    original is not 0 and exactly 0, a finite number, when original is 0. *)
Theorem delta_invariant :
  forall (orig alt : MaterialRecord) (dimensions : option DimensionsArg),
    Forall (fun d =>
              difference d = (alternative d - original d)%num /\
              ((original d =? Fin 0)%num = false ->
               percent_change d = (difference d / original d * Fin 100)%num) /\
              ((original d =? Fin 0)%num = true ->
               percent_change d = Fin 0 /\ finite (percent_change d)))
           (deltas (compareMaterials orig alt dimensions)).
Proof.
  intros orig alt dimensions.
  assert (Hone : forall o a,
             let d := delta o a in
             difference d = (alternative d - original d)%num /\
             ((original d =? Fin 0)%num = false ->
              percent_change d = (difference d / original d * Fin 100)%num) /\
             ((original d =? Fin 0)%num = true ->
              percent_change d = Fin 0 /\ finite (percent_change d))).
  { intros o a d. destruct (delta_invariant_one o a) as (Hd & Hp & Hz).
    split; [exact Hd |]. split; [exact Hp |].
    intro H. split; [exact (Hz H) |].
    subst d. cbv zeta in Hz. now rewrite (Hz H). }
  unfold deltas, compareMaterials, propertyDelta.
  cbn [cmp_weight cmp_cost cmp_tensile_strength cmp_yield_strength
       cmp_elastic_modulus].
  destruct (tensile_strength orig), (tensile_strength alt),
           (yield_strength orig), (yield_strength alt),
           (elastic_modulus orig), (elastic_modulus alt);
    cbn [optional app]; repeat (apply Forall_cons; [apply Hone |]);
    apply Forall_nil.
Qed.

Lemma truthy_spec (x : number) :
  truthy x = true <-> isNaN x = false /\ (x =? Fin 0)%num = false.
Proof.
  destruct x as [| | | q]; cbn.
  - split; [discriminate | intros (H & _); discriminate].
  - split; auto.
  - split; auto.
  - destruct (Qeq_bool q 0); cbn; split; auto; intros (_ & H); auto.
Qed.

Lemma unusable_spec (o : option number) :
  unusable o -> match o with Some x => truthy x = false | None => True end.
Proof.
  destruct o as [x |]; [| auto]. cbn.
  destruct x as [| | | q]; cbn; intros [H | H]; try discriminate; auto.
  now rewrite H.
Qed.

(** C10.  With length, width and height all present and nonzero (each a
    number other than 0) the comparison is computed at their product; when
    the dimensions record is absent, or one of the three is absent or zero,
    it is computed at the volume 1000 and nothing is rejected.  The weight
    and the cost Deltas are the ones of that volume.  A dimension that is
    no number at all, NaN, is sent to the default like an absent one. *)
Theorem comparison_volume_fallback :
  forall (orig alt : MaterialRecord) (dimensions : option DimensionsArg),
    let volume := comparisonVolume dimensions in
    (forall d l w h,
       dimensions = Some d ->
       usable (arg_length d) l -> usable (arg_width d) w ->
       usable (arg_height d) h ->
       volume = (l * w * h)%num) /\
    (forall d,
       dimensions = Some d ->
       unusable (arg_length d) \/ unusable (arg_width d) \/ unusable (arg_height d) ->
       volume = Fin 1000) /\
    (dimensions = None -> volume = Fin 1000) /\
    cmp_weight (compareMaterials orig alt dimensions)
    = delta (Fin (density orig) * volume / Fin 1000000)%num
            (Fin (density alt) * volume / Fin 1000000)%num /\
    cmp_cost (compareMaterials orig alt dimensions)
    = delta (Fin (cost_per_kg orig) * (Fin (density orig) * volume / Fin 1000000))%num
            (Fin (cost_per_kg alt) * (Fin (density alt) * volume / Fin 1000000))%num.
Proof.
  intros orig alt dimensions volume. subst volume.
  split; [| split; [| split; [| split; reflexivity]]].
  - intros [dl dw dh] l w h -> (Hl & Hl') (Hw & Hw') (Hh & Hh').
    cbn in Hl, Hw, Hh. subst dl dw dh. cbn [comparisonVolume].
    apply truthy_spec in Hl', Hw', Hh'. now rewrite Hl', Hw', Hh'.
  - intros [dl dw dh] -> H. cbn [arg_length arg_width arg_height] in H.
    cbn [comparisonVolume].
    destruct dl as [l |], dw as [w |], dh as [h |]; try reflexivity.
    destruct H as [H | [H | H]]; apply unusable_spec in H; rewrite H;
      rewrite ?andb_false_r; reflexivity.
  - now intros ->.
Qed.

Lemma comparison_volume_fallback_witness :
  usable (Some (Fin 100)) (Fin 100) /\
  usable (Some (Fin 50)) (Fin 50) /\
  usable (Some (Fin 25)) (Fin 25) /\
  comparisonVolume boxDimensions = (Fin 100 * Fin 50 * Fin 25)%num /\
  unusable (Some (Fin 0)) /\
  comparisonVolume zeroDimensions = Fin 1000.
Proof.
  assert (U : forall q, Qeq_bool q 0 = false -> usable (Some (Fin q)) (Fin q)).
  { intros q H. repeat split. exact H. }
  assert (Z : unusable (Some (Fin 0))) by (left; reflexivity).
  destruct (comparison_volume_fallback steel1018 aluminum6061 boxDimensions)
    as (Hproduct & _).
  destruct (comparison_volume_fallback steel1018 aluminum6061 zeroDimensions)
    as (_ & Hdefault & _).
  split; [now apply U |]. split; [now apply U |]. split; [now apply U |].
  split; [| split; [exact Z |]].
  - apply (Hproduct _ _ _ _ eq_refl); now apply U.
  - apply (Hdefault _ eq_refl). left. exact Z.
Defined.

End ComparisonFacts.

(* ================================================================== *)
(** ** The similarity score *)
(* ================================================================== *)

Section ScoreFacts.

Local Open Scope Q_scope.

Lemma totalWeight_56 : totalWeight = 56.
Proof. reflexivity. Qed.

Lemma Qminimum_le_r (x y : Q) : Qminimum x y <= y.
Proof. unfold Qminimum. destruct (Qltb_spec y x); lra. Qed.

Lemma Qminimum_glb (z x y : Q) : z <= x -> z <= y -> z <= Qminimum x y.
Proof. unfold Qminimum. destruct (Qltb_spec y x); lra. Qed.

Lemma Qdiv_nonneg (a b : Q) : 0 <= a -> 0 < b -> 0 <= a / b.
Proof.
  intros Ha Hb. apply Qle_shift_div_l; [assumption | lra].
Qed.

(** A share [s * weight / totalWeight] of a non-negative [s] is non-negative. *)
Lemma share_nonneg (s weight : Q) : 0 <= s -> 0 <= weight -> 0 <= s * weight / totalWeight.
Proof.
  intros Hs Hw. rewrite totalWeight_56.
  apply Qdiv_nonneg; [| lra]. now apply Qmult_le_0_compat.
Qed.

(** Every per-property term is non-negative. *)
Lemma propertyTerm_nonneg (o a : value) (weight : Q) :
  0 <= weight -> 0 <= propertyTerm o a weight.
Proof.
  intro Hw. unfold propertyTerm.
  destruct o as [| x | s], a as [| y | t]; try lra.
  - destruct (Qltb_spec 0 (Qmaximum (Qabs x) (Qabs y))) as [Hmax | Hmax].
    + apply share_nonneg; [| assumption].
      pose proof (Qminimum_le_r (Qabs (x - y) / Qmaximum (Qabs x) (Qabs y)) 1).
      lra.
    + apply share_nonneg; [lra | assumption].
  - destruct (String.eqb (toLowerCase s) (toLowerCase t)); [| lra].
    apply share_nonneg; [lra | assumption].
Qed.

Lemma fold_terms_nonneg (original alternative : MaterialRecord)
    (table : list (property * Q)) :
  Forall (fun e => 0 <= snd e) table ->
  forall start,
    0 <= start ->
    0 <= fold_left (fun score '(p, weight) =>
                      score + propertyTerm (prop original p) (prop alternative p) weight)
                   table start.
Proof.
  induction 1 as [| [p weight] table Hw _ IH]; intros start Hstart; cbn [fold_left].
  - assumption.
  - apply IH. pose proof (propertyTerm_nonneg (prop original p) (prop alternative p) weight Hw).
    cbn [snd] in *. lra.
Qed.

Lemma properties_weights_nonneg : Forall (fun e => 0 <= snd e) properties.
Proof. unfold properties. repeat constructor; cbn [snd]; lra. Qed.

(** C7.  For every pair of material records the similarity score lies
    between 0 and 100: every per-property term is non-negative, and the sum
    is capped at 100 after the +10 bonus of a shared category. *)
Theorem similarity_score_bounds :
  forall original alternative : MaterialRecord,
    0 <= calculateSimilarityScore original alternative <= 100 /\
    Forall (fun e => 0 <= propertyTerm (prop original (fst e))
                                       (prop alternative (fst e)) (snd e))
           properties.
Proof.
  intros original alternative. split; [split |].
  - unfold calculateSimilarityScore.
    pose proof (fold_terms_nonneg original alternative properties
                  properties_weights_nonneg 0 (Qle_refl 0)) as Hsum.
    apply Qminimum_glb; [| lra].
    destruct (String.eqb (category original) (category alternative)); lra.
  - apply Qminimum_le_r.
  - eapply Forall_impl; [| exact properties_weights_nonneg].
    intros [p weight] Hw. now apply propertyTerm_nonneg.
Qed.

End ScoreFacts.

(* ================================================================== *)
(** ** Sorting by a rational key, largest first *)
(* ================================================================== *)

Section SortFacts.

Variable A : Type.
Variable key : A -> Q.

Local Open Scope Q_scope.

Lemma Qeq_bool_false (x y : Q) : ~ x == y -> Qeq_bool x y = false.
Proof.
  intro H. destruct (Qeq_bool x y) eqn:E; [| reflexivity].
  now apply Qeq_bool_iff in E.
Qed.

Lemma keyedBy_none (s : Q) (l : list A) :
  Forall (fun c => ~ key c == s) l -> keyedBy key s l = [].
Proof.
  induction 1 as [| c l Hc _ IH]; [reflexivity |].
  unfold keyedBy in *. cbn [filter]. now rewrite (Qeq_bool_false _ _ Hc).
Qed.

Lemma keyedBy_cons (s : Q) (c : A) (l : list A) :
  keyedBy key s (c :: l)
  = if Qeq_bool (key c) s then c :: keyedBy key s l else keyedBy key s l.
Proof. reflexivity. Qed.

Lemma after_key (y x : A) : JsArray.after (comparatorOf key) y x = Qltb (key y) (key x).
Proof.
  unfold JsArray.after, comparatorOf. cbn [ltb].
  destruct (Qltb_spec (key y) (key x)), (Qcompare_spec 0 (key x - key y));
    try reflexivity; lra.
Qed.

Lemma insert_permutation (x : A) (l : list A) :
  Permutation (JsArray.insert (comparatorOf key) x l) (x :: l).
Proof.
  induction l as [| y l IH]; cbn [JsArray.insert]; [reflexivity |].
  destruct (JsArray.after (comparatorOf key) y x); [reflexivity |].
  rewrite IH. apply perm_swap.
Qed.

Lemma insert_sorted (x : A) (l : list A) :
  StronglySorted (descendingBy key) l ->
  StronglySorted (descendingBy key) (JsArray.insert (comparatorOf key) x l).
Proof.
  induction 1 as [| y l Hsorted IH Hy]; cbn [JsArray.insert].
  - repeat constructor.
  - rewrite after_key. destruct (Qltb_spec (key y) (key x)) as [Hlt | Hge].
    + constructor; [now constructor |].
      constructor; [unfold descendingBy; lra |].
      eapply Forall_impl; [| exact Hy]. unfold descendingBy. intros z Hz. lra.
    + constructor; [exact IH |].
      rewrite (insert_permutation x l). now constructor.
Qed.

(** Stability of one insertion: among the elements of one key, the new
    element comes last. *)
Lemma insert_keyed (s : Q) (x : A) (l : list A) :
  StronglySorted (descendingBy key) l ->
  keyedBy key s (JsArray.insert (comparatorOf key) x l)
  = if Qeq_bool (key x) s then (keyedBy key s l ++ [x])%list else keyedBy key s l.
Proof.
  induction 1 as [| y l Hsorted IH Hy]; cbn [JsArray.insert].
  - rewrite keyedBy_cons. now destruct (Qeq_bool (key x) s).
  - rewrite after_key. destruct (Qltb_spec (key y) (key x)) as [Hlt | Hge].
    + rewrite keyedBy_cons. destruct (Qeq_bool (key x) s) eqn:Ex; [| reflexivity].
      apply Qeq_bool_iff in Ex.
      rewrite keyedBy_none; [reflexivity |].
      constructor; [lra |].
      eapply Forall_impl; [| exact Hy]. unfold descendingBy. intros z Hz. lra.
    + rewrite !keyedBy_cons, IH.
      destruct (Qeq_bool (key y) s), (Qeq_bool (key x) s); reflexivity.
Qed.

Lemma fold_insert (l : list A) :
  forall acc,
    StronglySorted (descendingBy key) acc ->
    let r := fold_left (fun acc x => JsArray.insert (comparatorOf key) x acc) l acc in
    StronglySorted (descendingBy key) r /\
    Permutation r (acc ++ l) /\
    forall s, keyedBy key s r = (keyedBy key s acc ++ keyedBy key s l)%list.
Proof.
  induction l as [| x l IH]; intros acc Hacc; cbn [fold_left].
  - rewrite app_nil_r. repeat split; auto.
    intro s. cbn. now rewrite app_nil_r.
  - destruct (IH _ (insert_sorted x acc Hacc)) as (Hs & Hp & Hk).
    repeat split; [exact Hs | |].
    + rewrite Hp, insert_permutation. apply Permutation_middle.
    + intro s. rewrite Hk, (insert_keyed s x acc Hacc), keyedBy_cons.
      destruct (Qeq_bool (key x) s); [| reflexivity].
      now rewrite <- app_assoc.
Qed.

(** The array [sort] returns is ordered by falling key, is a permutation of
    the input, and keeps the elements of each key in their input order. *)
Lemma sort_stable (l : list A) :
  StronglySorted (descendingBy key) (JsArray.sort (comparatorOf key) l) /\
  Permutation (JsArray.sort (comparatorOf key) l) l /\
  forall s, keyedBy key s (JsArray.sort (comparatorOf key) l) = keyedBy key s l.
Proof.
  exact (fold_insert l [] (SSorted_nil _)).
Qed.

End SortFacts.

(* ================================================================== *)
(** ** The recommender: ranking and lookup *)
(* ================================================================== *)

Section RankingFacts.

Local Open Scope Q_scope.

Lemma In_firstn (A : Type) (n : nat) (l : list A) (x : A) :
  In x (firstn n l) -> In x l.
Proof.
  revert l. induction n as [| n IH]; intros [| y l]; cbn; try tauto.
  intros [-> | H]; auto.
Qed.

Lemma StronglySorted_firstn (A : Type) (R : A -> A -> Prop) (n : nat) (l : list A) :
  StronglySorted R l -> StronglySorted R (firstn n l).
Proof.
  intro H. revert n. induction H as [| x l Hl IH Hx]; intros [| n]; cbn;
    try constructor; auto.
  apply Forall_forall. intros y Hy. apply In_firstn in Hy.
  revert y Hy. now apply Forall_forall.
Qed.

Lemma StronglySorted_map (A B : Type) (R : A -> A -> Prop) (R' : B -> B -> Prop)
    (f : A -> B) (l : list A) :
  (forall x y, R x y -> R' (f x) (f y)) ->
  StronglySorted R l -> StronglySorted R' (map f l).
Proof.
  intros Hf. induction 1 as [| x l Hl IH Hx]; cbn; constructor; auto.
  apply Forall_forall. intros y Hy. apply in_map_iff in Hy as (z & <- & Hz).
  apply Hf. revert z Hz. now apply Forall_forall.
Qed.

(** Every candidate of a reference row has another row id. *)
Lemma candidates_exclude_reference (table : list MaterialRecord)
    (reference : MaterialRecord) (c : scored) :
  In c (candidates table reference) -> id (fst c) <> id reference.
Proof.
  unfold candidates, score. intro H.
  apply in_map_iff in H as (m & <- & Hm).
  apply filter_In in Hm as (_ & Hid). cbn [fst].
  apply negb_true_iff, Z.eqb_neq in Hid. exact Hid.
Qed.

(** C8.  For every catalog and every reference row found in it, the
    recommender resolves with the first five entries (at most) of the
    candidates sorted by falling similarity score, candidates of equal score
    staying in catalog order; the candidates are the rows whose id differs
    from the reference's, so the reference is never among its own
    alternatives. *)
Theorem ranking_contract :
  forall (table : list MaterialRecord) (materialName : string)
         (dimensions : option DimensionsArg) (reference : MaterialRecord),
    find (fun r => String.eqb (name r) materialName) table = Some reference ->
    exists (alts : list Alternative) (sorted : list scored),
      findAlternatives (sqlite table) materialName dimensions = Resolved alts /\
      map ranked alts = firstn 5 sorted /\
      StronglySorted byScoreDescending sorted /\
      Permutation sorted (candidates table reference) /\
      (forall s, withScore s sorted = withScore s (candidates table reference)) /\
      (List.length alts <= 5)%nat /\
      StronglySorted (fun a b => similarity_score b <= similarity_score a) alts /\
      Forall (fun a => id (material a) <> id reference) alts /\
      Forall (fun a => comparison a
                       = compareMaterials reference (material a) dimensions) alts.
Proof.
  intros table materialName dimensions reference Hfound.
  unfold findAlternatives, sqlite. cbn [get_by_name all_except].
  rewrite Hfound.
  change (score (filter (fun r => negb (id r =? id reference)%Z) table) reference)
    with (candidates table reference).
  change (JsArray.sort byScore (candidates table reference))
    with (JsArray.sort (comparatorOf snd) (candidates table reference)).
  destruct (sort_stable scored snd (candidates table reference)) as (Hsorted & Hperm & Hstable).
  set (sorted := JsArray.sort (comparatorOf snd) (candidates table reference)) in *.
  set (attach := fun alt : scored =>
                   mkAlternative (fst alt) (snd alt)
                     (compareMaterials reference (fst alt) dimensions)).
  exists (map attach (firstn 5 sorted)), sorted.
  split; [reflexivity |].
  split.
  { rewrite map_map.
    transitivity (map (fun c : scored => c) (firstn 5 sorted)); [| apply map_id].
    apply map_ext. now intros [m s]. }
  split; [exact Hsorted |].
  split; [exact Hperm |].
  split; [exact Hstable |].
  split; [rewrite length_map; apply firstn_le_length |].
  split.
  { apply StronglySorted_map with (R := byScoreDescending).
    - intros x y Hxy. exact Hxy.
    - now apply StronglySorted_firstn. }
  split.
  - apply Forall_forall. intros a Ha.
    apply in_map_iff in Ha as (c & <- & Hc). cbn [material attach].
    apply candidates_exclude_reference with (table := table).
    apply (Permutation_in _ Hperm). now apply In_firstn in Hc.
  - apply Forall_forall. intros a Ha.
    apply in_map_iff in Ha as (c & <- & _). reflexivity.
Qed.

Lemma ranking_contract_witness :
  find (fun r => String.eqb (name r) "AISI 1018 Steel") insertDefaultMaterials
  = Some steel1018 /\
  exists (alts : list Alternative) (sorted : list scored),
    findAlternatives catalog "AISI 1018 Steel" boxDimensions = Resolved alts /\
    map ranked alts = firstn 5 sorted /\
    StronglySorted byScoreDescending sorted /\
    Permutation sorted (candidates insertDefaultMaterials steel1018) /\
    (forall s, withScore s sorted
               = withScore s (candidates insertDefaultMaterials steel1018)) /\
    (List.length alts <= 5)%nat /\
    StronglySorted (fun a b => similarity_score b <= similarity_score a) alts /\
    Forall (fun a => id (material a) <> id steel1018) alts /\
    Forall (fun a => comparison a
                     = compareMaterials steel1018 (material a) boxDimensions) alts.
Proof.
  split; [reflexivity |].
  exact (ranking_contract insertDefaultMaterials "AISI 1018 Steel" boxDimensions
           steel1018 eq_refl).
Defined.

(** The five alternatives of the default steel over the default catalog, by
    row id: 4140 steel, 304 stainless, brass, magnesium, bronze. *)
Lemma default_steel_alternatives :
  match findAlternatives catalog "AISI 1018 Steel" boxDimensions with
  | Resolved alts => map (fun a => id (material a)) alts = [3; 2; 8; 16; 9]%Z
  | Rejected _ => False
  end.
Proof. vm_compute. reflexivity. Qed.

(** A lookup that finds no row resolves with no alternative, whatever the
    database; a failing lookup is what rejects. *)
Lemma no_row_no_alternative (db : Database) (materialName : string)
    (dimensions : option DimensionsArg) :
  (get_by_name db materialName = Rows None ->
   findAlternatives db materialName dimensions = Resolved []) /\
  (forall err, get_by_name db materialName = SqlError err ->
               findAlternatives db materialName dimensions = Rejected err).
Proof.
  unfold findAlternatives. split; [intros -> | intros err ->]; reflexivity.
Qed.

(** C9.  When the reference name matches no row of the catalog the
    recommender resolves with the empty list; it does not reject. *)
Theorem reference_not_found :
  forall (table : list MaterialRecord) (materialName : string)
         (dimensions : option DimensionsArg),
    Forall (fun r => name r <> materialName) table ->
    findAlternatives (sqlite table) materialName dimensions = Resolved [].
Proof.
  intros table materialName dimensions Hnone.
  apply no_row_no_alternative. unfold sqlite. cbn [get_by_name]. f_equal.
  induction Hnone as [| r table Hr _ IH]; cbn [find]; [reflexivity |].
  apply String.eqb_neq in Hr. now rewrite Hr.
Qed.

Lemma reference_not_found_witness :
  Forall (fun r => name r <> "Unobtainium") insertDefaultMaterials /\
  findAlternatives catalog "Unobtainium" boxDimensions = Resolved [].
Proof.
  assert (Hnone : Forall (fun r => name r <> "Unobtainium") insertDefaultMaterials).
  { apply Forall_forall. intros r Hr.
    apply String.eqb_neq.
    revert r Hr. apply Forall_forall. vm_compute. repeat constructor. }
  split; [exact Hnone |].
  exact (reference_not_found insertDefaultMaterials "Unobtainium" boxDimensions Hnone).
Defined.

End RankingFacts.

(* ================================================================== *)
(** ** More on the scanner *)
(* ================================================================== *)

Section ScannerFacts.

Lemma scan_app (lines1 lines2 : list string) :
  scan (lines1 ++ lines2) = fold_left onLine lines2 (scan lines1).
Proof. unfold scan. apply fold_left_app. Qed.

Lemma onLine_keeps_names (st : ScanState) (line : string) :
  (is_empty (productName st) = false ->
   productName (onLine st line) = productName st) /\
  (is_empty (materialInfo st) = false ->
   materialInfo (onLine st line) = materialInfo st).
Proof.
  unfold onLine.
  destruct (if includes line "CARTESIAN_POINT" then _ else _) as [points box].
  cbn [productName materialInfo].
  split; intros ->; now rewrite andb_false_r.
Qed.

Lemma fold_onLine_keeps_names (lines : list string) :
  forall st,
    (is_empty (productName st) = false ->
     productName (fold_left onLine lines st) = productName st) /\
    (is_empty (materialInfo st) = false ->
     materialInfo (fold_left onLine lines st) = materialInfo st).
Proof.
  induction lines as [| l ls IH]; intro st; cbn [fold_left]; [now split |].
  destruct (IH (onLine st l)) as (IHp & IHm).
  destruct (onLine_keeps_names st l) as (Hp & Hm).
  split; intro H.
  - rewrite IHp; rewrite (Hp H); auto.
  - rewrite IHm; rewrite (Hm H); auto.
Qed.

(** X1.  First match wins: once a line has set the product name (or the
    material hint), no later line changes it. *)
Theorem first_match_wins :
  forall lines1 lines2 : list string,
    (productName (scan lines1) <> "" ->
     productName (scan (lines1 ++ lines2)) = productName (scan lines1)) /\
    (materialInfo (scan lines1) <> "" ->
     materialInfo (scan (lines1 ++ lines2)) = materialInfo (scan lines1)).
Proof.
  intros lines1 lines2. rewrite scan_app.
  destruct (fold_onLine_keeps_names lines2 (scan lines1)) as (Hp & Hm).
  split; intro H; [apply Hp | apply Hm];
    [destruct (productName (scan lines1)) | destruct (materialInfo (scan lines1))];
    try reflexivity; now contradiction H.
Qed.

Lemma first_match_wins_witness :
  productName (scan ["PRODUCT('Bride')"]) <> "" /\
  productName (scan (["PRODUCT('Bride')"] ++ ["PRODUCT('Rondelle')"])) = "Bride".
Proof.
  assert (H : productName (scan ["PRODUCT('Bride')"]) <> "") by discriminate.
  split; [exact H |].
  exact (proj1 (first_match_wins ["PRODUCT('Bride')"] ["PRODUCT('Rondelle')"]) H).
Defined.

(** What one line adds to the three lists does not depend on the state. *)
Lemma onLine_appends (st : ScanState) (line : string) :
  annotations (onLine st line)
  = (annotations st ++ annotations (onLine initialState line))%list /\
  circles (onLine st line)
  = (circles st ++ circles (onLine initialState line))%list /\
  cartesianPoints (onLine st line)
  = (cartesianPoints st ++ cartesianPoints (onLine initialState line))%list.
Proof.
  unfold onLine.
  destruct (includes line "CARTESIAN_POINT");
    [destruct (first_group line) as [coordStr |];
     [destruct (3 <=? List.length (parseCoords coordStr))%nat |] |];
    destruct (includes line "ANNOTATION" || includes line "NOTE" || includes line "REMARK");
    destruct (first_quoted line);
    destruct (includes line "CIRCLE");
    destruct (match_circle line);
    cbn [annotations circles cartesianPoints initialState app];
    rewrite ?app_nil_r; auto.
Qed.

Lemma fold_onLine_appends (lines : list string) :
  forall st,
    annotations (fold_left onLine lines st)
    = (annotations st ++ annotations (scan lines))%list /\
    circles (fold_left onLine lines st)
    = (circles st ++ circles (scan lines))%list /\
    cartesianPoints (fold_left onLine lines st)
    = (cartesianPoints st ++ cartesianPoints (scan lines))%list.
Proof.
  unfold scan.
  induction lines as [| l ls IH]; intro st; cbn [fold_left].
  - cbn. now rewrite !app_nil_r.
  - destruct (IH (onLine st l)) as (Ha & Hc & Hp).
    destruct (IH (onLine initialState l)) as (Ha' & Hc' & Hp').
    destruct (onLine_appends st l) as (Ha1 & Hc1 & Hp1).
    rewrite Ha, Hc, Hp, Ha', Hc', Hp', Ha1, Hc1, Hp1, !app_assoc. auto.
Qed.

(** X2.  Annotations, circle radii and points are collected line by line
    in encounter order: the scan of two streams one after the other yields
    the lists of the first followed by the lists of the second. *)
Theorem scan_collects_in_order :
  forall lines1 lines2 : list string,
    annotations (scan (lines1 ++ lines2))
    = (annotations (scan lines1) ++ annotations (scan lines2))%list /\
    circles (scan (lines1 ++ lines2))
    = (circles (scan lines1) ++ circles (scan lines2))%list /\
    cartesianPoints (scan (lines1 ++ lines2))
    = (cartesianPoints (scan lines1) ++ cartesianPoints (scan lines2))%list.
Proof.
  intros lines1 lines2. rewrite scan_app. apply fold_onLine_appends.
Qed.

(** X4.  A scan that recorded no point returns exactly the dimensions
    30, 30, 5, whatever else the file holds. *)
Theorem no_point_default_dimensions :
  forall (lines : list string) (data : StepData),
    parseStepFile lines Close = Resolved data ->
    sd_cartesianPoints data = [] ->
    sd_dimensions data = Dim.mk (Fin 30) (Fin 30) (Fin 5).
Proof.
  intros lines data Hrun Hnone.
  apply parseStepFile_close in Hrun. subst data.
  cbn [sd_cartesianPoints sd_dimensions onClose] in *.
  rewrite (scan_tracks lines), Hnone. reflexivity.
Qed.

Lemma no_point_default_dimensions_witness :
  sd_cartesianPoints (onClose (scan pointlessWasher)) = [] /\
  sd_dimensions (onClose (scan pointlessWasher)) = Dim.mk (Fin 30) (Fin 30) (Fin 5).
Proof.
  split; [reflexivity |].
  exact (no_point_default_dimensions pointlessWasher _ eq_refl eq_refl).
Defined.

End ScannerFacts.

Section BoxFacts.

Lemma leb_Fin (p q : Q) : (Fin p <=? Fin q)%num = true <-> p <= q.
Proof. exact (geb_Fin q p). Qed.

(** The box of finite points: unset when there is none, else finite and
    around every one of them. *)
Lemma boxOf_around (points : list (list number)) :
  Forall finitePoint points ->
  (points = [] /\ boxOf points = initialBox) \/
  exists n0 n1 n2 x0 x1 x2 : Q,
    boxOf points = mkBox (Fin n0, Fin n1, Fin n2) (Fin x0, Fin x1, Fin x2) /\
    Forall (fun p => exists a b c : Q,
                coord p 0 = Fin a /\ coord p 1 = Fin b /\ coord p 2 = Fin c /\
                n0 <= a <= x0 /\ n1 <= b <= x1 /\ n2 <= c <= x2) points.
Proof.
  induction points as [| coords points IH] using rev_ind; intro H.
  - left. now split.
  - right. apply Forall_app in H as [Hpoints Hlast].
    inversion Hlast as [| ? ? (F0 & F1 & F2) _]; subst.
    destruct (coord coords 0) as [| | | a] eqn:E0; try contradiction.
    destruct (coord coords 1) as [| | | b] eqn:E1; try contradiction.
    destruct (coord coords 2) as [| | | c] eqn:E2; try contradiction.
    rewrite boxOf_snoc.
    destruct (IH Hpoints) as [(-> & ->) | (n0 & n1 & n2 & x0 & x1 & x2 & -> & Hin)].
    + exists a, b, c, a, b, c. unfold updateBox. rewrite E0, E1, E2. cbn.
      split; [reflexivity |]. constructor; [| constructor].
      exists a, b, c. repeat split; auto; lra.
    + unfold updateBox. cbn [box_min box_max]. rewrite E0, E1, E2.
      rewrite !min_Fin, !max_Fin.
      do 6 eexists. split; [reflexivity |].
      apply Forall_app. split.
      * eapply Forall_impl; [| exact Hin].
        intros p (pa & pb & pc & P0 & P1 & P2 & B0 & B1 & B2).
        exists pa, pb, pc. split; [exact P0 |]. split; [exact P1 |].
        split; [exact P2 |].
        destruct (Qltb_spec a n0), (Qltb_spec x0 a),
                 (Qltb_spec b n1), (Qltb_spec x1 b),
                 (Qltb_spec c n2), (Qltb_spec x2 c); repeat split; lra.
      * constructor; [| constructor].
        exists a, b, c. split; [exact E0 |]. split; [exact E1 |].
        split; [exact E2 |].
        destruct (Qltb_spec a n0), (Qltb_spec x0 a),
                 (Qltb_spec b n1), (Qltb_spec x1 b),
                 (Qltb_spec c n2), (Qltb_spec x2 c); repeat split; lra.
Qed.

(** X3.  When every recorded point has finite coordinates, the returned
    bounding box encloses every recorded point on all three axes. *)
Theorem bounding_box_encloses_points :
  forall (lines : list string) (data : StepData),
    parseStepFile lines Close = Resolved data ->
    Forall finitePoint (sd_cartesianPoints data) ->
    Forall (encloses (sd_boundingBox data)) (sd_cartesianPoints data).
Proof.
  intros lines data Hrun Hfinite.
  apply parseStepFile_close in Hrun. subst data.
  cbn [sd_cartesianPoints sd_boundingBox onClose] in *.
  rewrite (scan_tracks lines).
  destruct (boxOf_around _ Hfinite)
    as [(-> & _) | (n0 & n1 & n2 & x0 & x1 & x2 & -> & Hin)]; [constructor |].
  eapply Forall_impl; [| exact Hin].
  intros p (a & b & c & P0 & P1 & P2 & B0 & B1 & B2).
  unfold encloses. cbn [box_min box_max]. rewrite P0, P1, P2, !leb_Fin. tauto.
Qed.

Lemma bounding_box_encloses_points_witness :
  Forall finitePoint (sd_cartesianPoints (onClose (scan block))) /\
  Forall (encloses (sd_boundingBox (onClose (scan block))))
         (sd_cartesianPoints (onClose (scan block))).
Proof.
  assert (H : Forall finitePoint (sd_cartesianPoints (onClose (scan block)))).
  { vm_compute. repeat constructor. }
  split; [exact H |].
  exact (bounding_box_encloses_points block _ eq_refl H).
Defined.

End BoxFacts.

Section RadiusFacts.

Lemma radius_char_plain (c : ascii) :
  is_radius_char c = true ->
  is_space c = false /\ read_sign (String c "") = (false, String c "") /\
  Ascii.eqb "I" c = false.
Proof.
  destruct c as [[] [] [] [] [] [] [] []]; vm_compute; intro H;
    try discriminate H; repeat split.
Qed.

Lemma digits_value_nonneg (s : string) :
  forall acc : Z, (0 <= acc)%Z -> (0 <= digits_value acc s)%Z.
Proof.
  induction s as [| c s IH]; intros acc H; cbn [digits_value]; [exact H |].
  apply IH. lia.
Qed.

Lemma pow10_positive (e : Z) : 0 < pow10 e.
Proof.
  unfold pow10. destruct (0 <=? e)%Z eqn:E.
  - apply Z.leb_le in E. unfold Qlt. cbn. rewrite Z.mul_1_r.
    apply Z.pow_pos_nonneg; lia.
  - reflexivity.
Qed.

(** [parseFloat] of a text that starts with a digit or a point. *)
Lemma parseFloat_unsigned (c : ascii) (s : string) :
  is_radius_char c = true -> unsignedOrNaN (parseFloat (String c s)).
Proof.
  intro Hc. destruct (radius_char_plain c Hc) as (Hspace & Hsign & HI).
  unfold parseFloat. cbn [trimStart]. rewrite Hspace.
  assert (Hs : read_sign (String c s) = (false, String c s)).
  { unfold read_sign in *.
    destruct c as [[] [] [] [] [] [] [] []]; try reflexivity; discriminate Hsign. }
  rewrite Hs.
  assert (Hp : prefix "Infinity" (String c s) = false).
  { cbn [prefix]. destruct (ascii_dec "I" c) as [<- | Hne]; [discriminate HI |].
    reflexivity. }
  rewrite Hp.
  destruct (span is_digit (String c s)) as [ip r1].
  destruct (match r1 with
            | String "." r => span is_digit r
            | _ => (EmptyString, r1)
            end) as [fp r2].
  destruct (is_empty ip && is_empty fp); [now left |].
  right. apply geb_Fin.
  rewrite Qred_correct.
  apply Qmult_le_0_compat.
  - change 0 with (inject_Z 0). rewrite <- Zle_Qle.
    now apply digits_value_nonneg.
  - apply Qlt_le_weak, pow10_positive.
Qed.

Lemma span_head (p : ascii -> bool) (s : string) (c : ascii) (r : string) :
  fst (span p s) = String c r -> p c = true.
Proof.
  destruct s as [| a s]; cbn [span]; [discriminate |].
  destruct (p a) eqn:E; [| discriminate].
  destruct (span p s). cbn. now intros [= <- _].
Qed.

Lemma circle_tail_head (s run : string) :
  circle_tail s = Some run ->
  exists c r, run = String c r /\ is_radius_char c = true.
Proof.
  unfold circle_tail.
  destruct (trimStart s) as [| c1 r1]; [discriminate |].
  destruct (Ascii.eqb_spec c1 "("); [subst c1 | destruct c1 as [[] [] [] [] [] [] [] []]; try discriminate; now contradiction n].
  destruct (span_until ")" r1) as [u [r2 |]]; [| discriminate].
  destruct (trimStart r2) as [| c2 r3]; [discriminate |].
  destruct (Ascii.eqb_spec c2 ","); [subst c2 | destruct c2 as [[] [] [] [] [] [] [] []]; try discriminate; now contradiction n].
  destruct (fst (span is_radius_char (trimStart r3))) as [| c r] eqn:E;
    [discriminate |].
  intros [= <-]. exists c, r. split; [reflexivity |].
  now apply span_head in E.
Qed.

Lemma match_circle_head (line run : string) :
  match_circle line = Some run ->
  exists c r, run = String c r /\ is_radius_char c = true.
Proof.
  induction line as [| a line IH]; cbn [match_circle]; [discriminate |].
  destruct (strip_prefix "CIRCLE" (String a line)) as [rest |].
  - destruct (circle_tail rest) as [found |] eqn:E.
    + intros [= <-]. now apply circle_tail_head in E.
    + exact IH.
  - exact IH.
Qed.

Lemma onLine_radii (st : ScanState) (line : string) :
  Forall unsignedOrNaN (circles st) ->
  Forall unsignedOrNaN (circles (onLine st line)).
Proof.
  intro H. unfold onLine.
  destruct (if includes line "CARTESIAN_POINT" then _ else _) as [points box].
  cbn [circles].
  destruct (includes line "CIRCLE"); [| exact H].
  destruct (match_circle line) as [radius |] eqn:E; [| exact H].
  apply Forall_app. split; [exact H |].
  constructor; [| constructor].
  apply match_circle_head in E as (c & r & -> & Hc).
  now apply parseFloat_unsigned.
Qed.

Lemma scan_radii (lines : list string) :
  Forall unsignedOrNaN (circles (scan lines)).
Proof.
  unfold scan.
  assert (H : forall st, Forall unsignedOrNaN (circles st) ->
                         Forall unsignedOrNaN (circles (fold_left onLine lines st))).
  { induction lines as [| l ls IH]; intros st Hst; cbn [fold_left]; [exact Hst |].
    apply IH. now apply onLine_radii. }
  apply H. constructor.
Qed.

(** X5.  No circle radius the scan records is below 0: each is NaN or a
    number that is at least 0. *)
Theorem radii_unsigned :
  forall (lines : list string) (data : StepData),
    parseStepFile lines Close = Resolved data ->
    Forall (fun r => isNaN r = true \/ (r >=? Fin 0)%num = true)
           (sd_circles data).
Proof.
  intros lines data Hrun.
  apply parseStepFile_close in Hrun. subst data. cbn [sd_circles onClose].
  exact (scan_radii lines).
Qed.

End RadiusFacts.

(* ================================================================== *)
(** ** The order of the returned dimensions *)
(* ================================================================== *)

Section CanonicalFacts.

Lemma max_extent (a b : number) : extent a -> extent b -> extent (max a b).
Proof.
  destruct a as [| | | a], b as [| | | b]; cbn [extent]; try contradiction;
    intros Ha Hb; try exact I.
  rewrite max_Fin. cbn [extent]. now destruct (Qltb a b).
Qed.

Lemma fold_max_extent (l : list number) :
  forall acc, extent acc -> Forall extent l -> extent (fold_left max l acc).
Proof.
  induction l as [| x l IH]; intros acc Hacc Hl; cbn [fold_left]; [exact Hacc |].
  inversion Hl; subst. apply IH; [now apply max_extent | assumption].
Qed.

(** [Math.max] of one or more numbers that are at least 0 is at least 0. *)
Lemma max_list_extent (l : list number) :
  (0 < List.length l)%nat -> Forall extent l -> extent (max_list l).
Proof.
  destruct l as [| x l]; cbn [List.length]; [lia |]. intros _ Hl.
  inversion Hl as [| y l' Hx Hl']; subst. unfold max_list. cbn [fold_left].
  apply fold_max_extent; [| exact Hl'].
  destruct x as [| | | q]; cbn [extent] in Hx; try contradiction; exact Hx.
Qed.

Lemma double_extent (x : number) : extent x -> extent (x * Fin 2)%num.
Proof.
  destruct x as [| | | q]; cbn [extent]; try contradiction; intro H.
  - exact I.
  - cbn [mul extent]. lra.
Qed.

Lemma radii_extent (radii : list number) :
  Forall unsignedOrNaN radii -> Forall notNaN radii -> Forall extent radii.
Proof.
  induction 1 as [| r l Hr _ IH]; intro Hnum; constructor.
  - inversion Hnum as [| r' l' Hr' _]; subst.
    destruct Hr as [Hr | Hr]; [unfold notNaN in Hr'; congruence |].
    now apply extent_geb_0.
  - apply IH. now inversion Hnum.
Qed.

(** C2 (as amended).  For every scan in which none of the three extents of
    the bounding box is NaN and, where the annular override applies, no
    circle radius is NaN, the returned dimensions are all at least 0 and
    length >= width.  Where the override does not apply, width >= height
    as well; where it applies, width is the outer diameter, height the
    smallest extent, and width >= height exactly when the outer diameter
    is at least the smallest extent. *)
Theorem canonical_dimensions :
  forall (lines : list string) (data : StepData),
    parseStepFile lines Close = Resolved data ->
    Forall notNaN (rawExtents (sd_boundingBox data)) ->
    (annularOverride data = true -> Forall notNaN (sd_circles data)) ->
    let d := sd_dimensions data in
    (Dim.length d >=? Dim.width d)%num = true /\
    (Dim.length d >=? Fin 0)%num = true /\
    (Dim.width d >=? Fin 0)%num = true /\
    (Dim.height d >=? Fin 0)%num = true /\
    (annularOverride data = false ->
     (Dim.width d >=? Dim.height d)%num = true) /\
    (annularOverride data = true ->
     (Dim.width d >=? Dim.height d)%num
     = (max_list (sd_circles data) * Fin 2
        >=? nth 2 (sortedExtents (sd_boundingBox data)) NaN)%num).
Proof.
  intros lines data Hrun Hextents Hradii.
  apply parseStepFile_close in Hrun. subst data.
  pose proof (scan_radii lines) as Hunsigned.
  unfold annularOverride in *.
  cbn [sd_dimensions sd_circles sd_productName sd_boundingBox onClose] in *.
  set (bb := boundingBox (scan lines)) in *.
  set (radii := circles (scan lines)) in *.
  set (name := productName (scan lines)) in *.
  unfold closeDimensions.
  destruct (foundPoints bb); cbn [andb] in *;
    [| repeat split; solve [reflexivity | intro H; discriminate H]].
  destruct (sortedExtents_ordered bb Hextents)
    as (p & q & r & -> & Hpq & Hqr & Hr & Hp & Hq).
  cbn [nth].
  destruct (isWasher radii name) eqn:Hwasher; cbn [andb] in *;
    [| cbn [Dim.length Dim.width Dim.height];
       repeat split; solve [assumption | intro H; (assumption || discriminate H)]].
  destruct (includes name "Rondelleintercloche"); cbn [negb] in *;
    [repeat split; solve [reflexivity | intro H; discriminate H] |].
  cbn [Dim.length Dim.width Dim.height].
  assert (Hdiameter : extent (max_list radii * Fin 2)%num).
  { apply double_extent, max_list_extent.
    - unfold isWasher in Hwasher. apply andb_prop in Hwasher as (Hlen & _).
      now apply Nat.ltb_lt in Hlen.
    - apply radii_extent; [exact Hunsigned | now apply Hradii]. }
  repeat split; try assumption.
  - now apply extent_geb_refl.
  - now apply extent_geb_0.
  - now apply extent_geb_0.
  - discriminate.
Qed.

(** The washer of the specification's example comes out as 30, 30, 2 under
    the override; the washer named by the literal comes out as 30, 30, 5
    without it. *)
Lemma canonical_dimensions_witness :
  let plain := onClose (scan plainWasher) in
  let literal := onClose (scan literalWasher) in
  Forall notNaN (rawExtents (sd_boundingBox plain)) /\
  annularOverride plain = true /\
  Forall notNaN (sd_circles plain) /\
  sd_dimensions plain = Dim.mk (Fin 30) (Fin 30) (Fin 2) /\
  (Dim.length (sd_dimensions plain) >=? Dim.width (sd_dimensions plain))%num = true /\
  (Dim.width (sd_dimensions plain) >=? Dim.height (sd_dimensions plain))%num = true /\
  (Dim.height (sd_dimensions plain) >=? Fin 0)%num = true /\
  Forall notNaN (rawExtents (sd_boundingBox literal)) /\
  annularOverride literal = false /\
  sd_dimensions literal = Dim.mk (Fin 30) (Fin 30) (Fin 5) /\
  (Dim.length (sd_dimensions literal) >=? Dim.width (sd_dimensions literal))%num = true /\
  (Dim.width (sd_dimensions literal) >=? Dim.height (sd_dimensions literal))%num = true /\
  (Dim.height (sd_dimensions literal) >=? Fin 0)%num = true.
Proof.
  assert (Hplain : Forall notNaN (rawExtents (sd_boundingBox (onClose (scan plainWasher))))).
  { vm_compute. repeat constructor. }
  assert (Hradii : Forall notNaN (sd_circles (onClose (scan plainWasher)))).
  { vm_compute. repeat constructor. }
  assert (Hliteral : Forall notNaN (rawExtents (sd_boundingBox (onClose (scan literalWasher))))).
  { vm_compute. repeat constructor. }
  pose proof (canonical_dimensions plainWasher _ eq_refl Hplain (fun _ => Hradii))
    as (Hlw & _ & _ & Hh & _ & Hwh).
  pose proof (canonical_dimensions literalWasher _ eq_refl Hliteral
                (fun H : annularOverride (onClose (scan literalWasher)) = true =>
                   False_ind _ (diff_false_true H)))
    as (Hlw' & _ & _ & Hh' & Hwh' & _).
  cbv zeta.
  split; [exact Hplain |]. split; [reflexivity |]. split; [exact Hradii |].
  split; [reflexivity |]. split; [exact Hlw |].
  split; [rewrite (Hwh eq_refl); reflexivity |]. split; [exact Hh |].
  split; [exact Hliteral |]. split; [reflexivity |]. split; [reflexivity |].
  split; [exact Hlw' |]. split; [exact (Hwh' eq_refl) |]. exact Hh'.
Defined.

End CanonicalFacts.

(* ================================================================== *)
(** ** More on weight and cost *)
(* ================================================================== *)

Section CalculatorFacts.

Local Open Scope Q_scope.

Lemma leb_Fin_0_false (q : Q) : 0 < q -> (Fin q <=? Fin 0)%num = false.
Proof.
  intro H. destruct (Fin q <=? Fin 0)%num eqn:E; [| reflexivity].
  apply leb_Fin in E. lra.
Qed.

Lemma find_none_by_name (table : list MaterialRecord) (materialName : string) :
  Forall (fun r => name r <> materialName) table ->
  find (fun r => String.eqb (name r) materialName) table = None.
Proof.
  induction 1 as [| r table Hr _ IH]; cbn [find]; [reflexivity |].
  apply String.eqb_neq in Hr. now rewrite Hr.
Qed.

(** A recalculation whose request passes validation and whose lookup
    succeeds, for the density and the price the lookup has produced. *)
Lemma recalculate_with (db : Database) (materialName : string)
    (volume : Calculator.jsvalue) (d k : Q) (found : option MaterialRecord) :
  is_empty materialName = false ->
  isNaN (toFloat volume) = false -> (toFloat volume <=? Fin 0)%num = false ->
  get_by_name db materialName = Rows found ->
  d = match found with Some row => density row | None => 7.85 end ->
  k = match found with Some row => cost_per_kg row | None => 2.0 end ->
  let weight := ((Fin d * toFloat volume) / million)%num in
  recalculate db materialName volume
  = if isNaN weight then Failure 500 "Invalid weight value"
    else if (weight <=? Fin 0)%num then Failure 500 "Weight must be greater than zero"
    else WeightAndCost weight (weight * Fin k)%num.
Proof.
  intros Hname Hnum Hpos Hget -> -> weight.
  unfold recalculate. rewrite Hname, Hnum, Hpos. cbn [orb].
  unfold calculateWeight, calculateCost. cbn [toFloat].
  rewrite Hnum, Hpos, Hget.
  destruct found as [row |]; fold weight;
    destruct (isNaN weight); try reflexivity;
    destruct (weight <=? Fin 0)%num; reflexivity.
Qed.

(** X6.  For a material the catalog holds, a recalculation whose volume
    passes validation computes the weight from the row's density, as
    density x volume / 1000000, and answers it with the cost
    weight x cost_per_kg; it fails, with status 500 and the message of
    [calculateCost], only when that weight is NaN or not above 0. *)
Theorem recalculate_known_material :
  forall (table : list MaterialRecord) (materialName : string)
         (volume : Calculator.jsvalue) (row : MaterialRecord),
    is_empty materialName = false ->
    find (fun r => String.eqb (name r) materialName) table = Some row ->
    isNaN (toFloat volume) = false -> (toFloat volume <=? Fin 0)%num = false ->
    let weight := ((Fin (density row) * toFloat volume) / million)%num in
    recalculate (sqlite table) materialName volume
    = if isNaN weight then Failure 500 "Invalid weight value"
      else if (weight <=? Fin 0)%num
           then Failure 500 "Weight must be greater than zero"
           else WeightAndCost weight (weight * Fin (cost_per_kg row))%num.
Proof.
  intros table materialName volume row Hname Hfind Hnum Hpos.
  apply (recalculate_with (sqlite table) materialName volume (density row)
           (cost_per_kg row) (Some row)); auto.
  unfold sqlite. cbn [get_by_name]. now rewrite Hfind.
Qed.

Lemma recalculate_known_material_witness :
  recalculate catalog "AISI 1018 Steel" (JStr "1000000")
  = WeightAndCost ((Fin 7.87 * Fin 1000000) / million)%num
                  ((Fin 7.87 * Fin 1000000) / million * Fin 1.2)%num.
Proof.
  exact (recalculate_known_material insertDefaultMaterials "AISI 1018 Steel"
           (JStr "1000000") steel1018 eq_refl eq_refl eq_refl eq_refl).
Defined.

(** X7.  For a material name the catalog does not hold, a recalculation
    whose volume passes validation does not fail for the missing row: it
    computes with the density 7.85 and the price 2 per kilogram, and fails
    only when the weight so computed is NaN or not above 0. *)
Theorem recalculate_unknown_material :
  forall (table : list MaterialRecord) (materialName : string)
         (volume : Calculator.jsvalue),
    is_empty materialName = false ->
    Forall (fun r => name r <> materialName) table ->
    isNaN (toFloat volume) = false -> (toFloat volume <=? Fin 0)%num = false ->
    let weight := ((Fin 7.85 * toFloat volume) / million)%num in
    recalculate (sqlite table) materialName volume
    = if isNaN weight then Failure 500 "Invalid weight value"
      else if (weight <=? Fin 0)%num
           then Failure 500 "Weight must be greater than zero"
           else WeightAndCost weight (weight * Fin 2.0)%num.
Proof.
  intros table materialName volume Hname Hnone Hnum Hpos.
  assert (Hget : get_by_name (sqlite table) materialName = Rows None).
  { unfold sqlite. cbn [get_by_name]. now rewrite find_none_by_name. }
  exact (recalculate_with (sqlite table) materialName volume 7.85 2.0 None
           Hname Hnum Hpos Hget eq_refl eq_refl).
Qed.

Lemma recalculate_unknown_material_witness :
  recalculate catalog "Unobtainium" (JNum (Fin 2000))
  = WeightAndCost ((Fin 7.85 * Fin 2000) / million)%num
                  ((Fin 7.85 * Fin 2000) / million * Fin 2.0)%num.
Proof.
  assert (Hnone : Forall (fun r => name r <> "Unobtainium")%string
                         insertDefaultMaterials).
  { apply Forall_forall. intros r Hr. apply String.eqb_neq.
    revert r Hr. apply Forall_forall. vm_compute. repeat constructor. }
  exact (recalculate_unknown_material insertDefaultMaterials "Unobtainium"
           (JNum (Fin 2000)) eq_refl Hnone eq_refl eq_refl).
Defined.

(** X8.  A recalculation with a sound request still fails with status 500
    in two cases: when the lookup fails, with the database's message; and
    when the material's density is 0 or less, because the cost step
    rejects the weight. *)
Theorem recalculate_failures :
  forall (db : Database) (materialName : string)
         (volume : Calculator.jsvalue) (q : Q),
    is_empty materialName = false ->
    toFloat volume = Fin q -> 0 < q ->
    (forall err, get_by_name db materialName = SqlError err ->
                 recalculate db materialName volume = Failure 500 err) /\
    (forall row, get_by_name db materialName = Rows (Some row) ->
                 density row <= 0 ->
                 recalculate db materialName volume
                 = Failure 500 "Weight must be greater than zero").
Proof.
  intros db materialName volume q Hname Hvol Hq.
  unfold recalculate. rewrite Hname, Hvol. cbn [isNaN orb].
  rewrite (leb_Fin_0_false q Hq).
  unfold calculateWeight, calculateCost. cbn [toFloat isNaN].
  rewrite (leb_Fin_0_false q Hq).
  split.
  - now intros err ->.
  - intros row -> Hd.
    change ((Fin (density row) * Fin q) / million)%num
      with (Fin (density row * q / 1000000)).
    cbn [isNaN].
    assert (Hle : (Fin (density row * q / 1000000) <=? Fin 0)%num = true).
    { apply leb_Fin. apply Qle_shift_div_r; [reflexivity | nra]. }
    now rewrite Hle.
Qed.

Lemma recalculate_failures_witness :
  recalculate brokenDb "AISI 1018 Steel" (JNum (Fin 10)) = Failure 500 "SQLITE_CANTOPEN" /\
  recalculate (sqlite [vacuum]) "Vacuum" (JNum (Fin 10))
  = Failure 500 "Weight must be greater than zero".
Proof.
  split.
  - exact (proj1 (recalculate_failures brokenDb "AISI 1018 Steel" (JNum (Fin 10)) 10
                    eq_refl eq_refl eq_refl) "SQLITE_CANTOPEN" eq_refl).
  - apply (proj2 (recalculate_failures (sqlite [vacuum]) "Vacuum" (JNum (Fin 10)) 10
                    eq_refl eq_refl eq_refl) vacuum eq_refl).
    discriminate.
Defined.

End CalculatorFacts.

(* ================================================================== *)
(** ** More on the similarity score *)
(* ================================================================== *)

Section SimilarityFacts.

Local Open Scope Q_scope.

Lemma Qltb_compat (x x' y y' : Q) : x == x' -> y == y' -> Qltb x y = Qltb x' y'.
Proof.
  intros Hx Hy. destruct (Qltb_spec x y), (Qltb_spec x' y'); try reflexivity; lra.
Qed.

Lemma Qminimum_compat (x x' y : Q) : x == x' -> Qminimum x y == Qminimum x' y.
Proof.
  intro H. unfold Qminimum.
  destruct (Qltb_spec y x), (Qltb_spec y x'); lra.
Qed.

Lemma Qmaximum_sym (x y : Q) : Qmaximum x y == Qmaximum y x.
Proof.
  unfold Qmaximum. destruct (Qltb_spec x y), (Qltb_spec y x); lra.
Qed.

Lemma propertyTerm_sym (o a : value) (weight : Q) :
  propertyTerm o a weight == propertyTerm a o weight.
Proof.
  unfold propertyTerm. destruct o as [| x | s], a as [| y | t]; try reflexivity.
  - rewrite (Qabs_Qminus x y).
    pose proof (Qmaximum_sym (Qabs x) (Qabs y)) as Hmax.
    rewrite (Qltb_compat 0 0 _ _ (Qeq_refl 0) Hmax).
    destruct (Qltb 0 (Qmaximum (Qabs y) (Qabs x))); [| reflexivity].
    assert (Hdiff : Qabs (y - x) / Qmaximum (Qabs x) (Qabs y)
                    == Qabs (y - x) / Qmaximum (Qabs y) (Qabs x))
      by now rewrite Hmax.
    now rewrite (Qminimum_compat _ _ 1 Hdiff).
  - rewrite String.eqb_sym. reflexivity.
Qed.

Lemma fold_terms_compat (f g : property -> Q -> Q) (table : list (property * Q)) :
  (forall p w, f p w == g p w) ->
  forall x y, x == y ->
    fold_left (fun score '(p, weight) => score + f p weight) table x
    == fold_left (fun score '(p, weight) => score + g p weight) table y.
Proof.
  intro Hfg. induction table as [| [p w] table IH]; intros x y Hxy; cbn [fold_left].
  - exact Hxy.
  - apply IH. now rewrite Hxy, (Hfg p w).
Qed.

(** X9.  The similarity score is symmetric: scoring B against A gives the
    same value as scoring A against B. *)
Theorem similarity_symmetric :
  forall a b : MaterialRecord,
    calculateSimilarityScore a b == calculateSimilarityScore b a.
Proof.
  intros a b. unfold calculateSimilarityScore.
  pose proof (fold_terms_compat
                (fun p w => propertyTerm (prop a p) (prop b p) w)
                (fun p w => propertyTerm (prop b p) (prop a p) w)
                properties
                (fun p w => propertyTerm_sym (prop a p) (prop b p) w)
                0 0 (Qeq_refl 0)) as Hsum.
  cbv beta in Hsum.
  rewrite (String.eqb_sym (category a) (category b)).
  destruct (String.eqb (category b) (category a));
    apply Qminimum_compat; now rewrite Hsum.
Qed.

Lemma propertyTerm_equal (v : value) (weight : Q) :
  v <> Null -> propertyTerm v v weight == 100 * weight / totalWeight.
Proof.
  intro Hv. unfold propertyTerm. destruct v as [| x | s]; [now contradiction Hv | |].
  - destruct (Qltb 0 (Qmaximum (Qabs x) (Qabs x))); [| reflexivity].
    assert (Hzero : Qabs (x - x) / Qmaximum (Qabs x) (Qabs x) == 0).
    { assert (E : Qabs (x - x) == 0) by (rewrite Qabs_pos; lra).
      rewrite E. unfold Qdiv. lra. }
    rewrite (Qminimum_compat _ _ 1 Hzero).
    unfold Qminimum. destruct (Qltb_spec 1 0); [lra |].
    setoid_replace ((1 - 0) * 100 * weight) with (100 * weight) by ring.
    reflexivity.
  - now rewrite String.eqb_refl.
Qed.

(** X10.  A candidate whose eight scored properties are all present and
    equal to the reference's scores 100, whatever the two categories. *)
Theorem identical_properties_score_100 :
  forall a b : MaterialRecord,
    (forall p : property, prop a p = prop b p /\ prop a p <> Null) ->
    calculateSimilarityScore a b == 100.
Proof.
  intros a b Hsame. unfold calculateSimilarityScore, properties.
  cbn [fold_left].
  assert (Hterm : forall p w,
             propertyTerm (prop a p) (prop b p) w == 100 * w / totalWeight).
  { intros p w. destruct (Hsame p) as (<- & Hp). now apply propertyTerm_equal. }
  match goal with
  | |- context [if _ then ?s + 10 else _] => set (sum := s)
  end.
  assert (Hsum : sum == 100).
  { subst sum. rewrite !Hterm, totalWeight_56. vm_compute. reflexivity. }
  destruct (String.eqb (category a) (category b)).
  - assert (H : sum + 10 == 110) by (rewrite Hsum; reflexivity).
    rewrite (Qminimum_compat _ _ 100 H). vm_compute. reflexivity.
  - rewrite (Qminimum_compat _ _ 100 Hsum). vm_compute. reflexivity.
Qed.

Lemma identical_properties_score_100_witness :
  calculateSimilarityScore steel1018 steel1018 == 100.
Proof.
  apply identical_properties_score_100.
  intros []; split; try reflexivity; discriminate.
Defined.

Lemma propertyTerm_missing (o a : value) (weight : Q) :
  o = Null \/ a = Null -> propertyTerm o a weight = 0.
Proof.
  intros [-> | ->]; [reflexivity |]. now destruct o.
Qed.

(** X11.  When no scored property is present on both records, only the
    category counts: the score is 10 for a shared category and 0
    otherwise. *)
Theorem no_common_property_score :
  forall a b : MaterialRecord,
    (forall p : property, prop a p = Null \/ prop b p = Null) ->
    calculateSimilarityScore a b
    == if String.eqb (category a) (category b) then 10 else 0.
Proof.
  intros a b Hmiss. unfold calculateSimilarityScore, properties.
  cbn [fold_left].
  rewrite !propertyTerm_missing by apply Hmiss.
  destruct (String.eqb (category a) (category b)); vm_compute; reflexivity.
Qed.

Lemma no_common_property_score_witness :
  calculateSimilarityScore vacuum steel1018 == 0.
Proof.
  apply (no_common_property_score vacuum steel1018).
  intros []; left; reflexivity.
Defined.

End SimilarityFacts.

(* ================================================================== *)
(** ** More on the recommender *)
(* ================================================================== *)

Section AlternativesFacts.

Local Open Scope Q_scope.

Lemma score_in_range (a b : MaterialRecord) :
  0 <= calculateSimilarityScore a b <= 100.
Proof.
  unfold calculateSimilarityScore.
  pose proof (fold_terms_nonneg a b properties properties_weights_nonneg 0
                (Qle_refl 0)) as Hsum.
  split; [| apply Qminimum_le_r].
  apply Qminimum_glb; [| lra].
  destruct (String.eqb (category a) (category b)); lra.
Qed.

Lemma StronglySorted_app_order (A : Type) (R : A -> A -> Prop) (l1 l2 : list A) :
  StronglySorted R (l1 ++ l2) ->
  forall x y, In x l1 -> In y l2 -> R x y.
Proof.
  induction l1 as [| a l1 IH]; cbn; intros H x y Hx Hy; [contradiction |].
  inversion H as [| ? ? Hsorted Hall]; subst.
  destruct Hx as [-> | Hx].
  - rewrite Forall_forall in Hall. apply Hall. apply in_or_app. now right.
  - now apply (IH Hsorted).
Qed.

(** What [findAlternatives] resolves with, over a healthy catalog that
    holds the reference. *)
Lemma findAlternatives_found (table : list MaterialRecord) (materialName : string)
    (dimensions : option DimensionsArg) (reference : MaterialRecord) :
  find (fun r => String.eqb (name r) materialName) table = Some reference ->
  findAlternatives (sqlite table) materialName dimensions
  = Resolved
      (map (fun alt : scored =>
              mkAlternative (fst alt) (snd alt)
                (compareMaterials reference (fst alt) dimensions))
           (firstn 5 (@JsArray.sort scored (@comparatorOf scored snd)
                        (candidates table reference)))).
Proof.
  intro Hfound. unfold findAlternatives, sqlite. cbn [get_by_name all_except].
  now rewrite Hfound.
Qed.

(** X12.  Over a catalog that holds the reference, the recommender returns
    as many alternatives as there are rows with another id, up to five. *)
Theorem alternatives_count :
  forall (table : list MaterialRecord) (materialName : string)
         (dimensions : option DimensionsArg) (reference : MaterialRecord),
    find (fun r => String.eqb (name r) materialName) table = Some reference ->
    exists alts : list Alternative,
      findAlternatives (sqlite table) materialName dimensions = Resolved alts /\
      List.length alts
      = Nat.min 5 (List.length
                     (filter (fun r => negb (Z.eqb (id r) (id reference))) table)).
Proof.
  intros table materialName dimensions reference Hfound.
  eexists. split;
    [exact (findAlternatives_found table materialName dimensions reference Hfound) |].
  destruct (sort_stable scored snd (candidates table reference)) as (_ & Hperm & _).
  rewrite length_map, length_firstn, (Permutation_length Hperm).
  unfold candidates, score. now rewrite length_map.
Qed.

Lemma alternatives_count_witness :
  exists alts : list Alternative,
    findAlternatives (sqlite [steel1018; aluminum6061]) "AISI 1018 Steel" None
    = Resolved alts /\
    List.length alts = 1%nat.
Proof.
  exact (alternatives_count [steel1018; aluminum6061] "AISI 1018 Steel" None
           steel1018 eq_refl).
Defined.

(** X13.  Every alternative returned is a row of the catalog carrying its
    own similarity score to the reference, between 0 and 100, and no
    candidate left out scores higher than one that is returned. *)
Theorem alternatives_are_the_best :
  forall (table : list MaterialRecord) (materialName : string)
         (dimensions : option DimensionsArg) (reference : MaterialRecord),
    find (fun r => String.eqb (name r) materialName) table = Some reference ->
    exists alts : list Alternative,
      findAlternatives (sqlite table) materialName dimensions = Resolved alts /\
      Forall (fun a =>
                In (material a) table /\
                similarity_score a = calculateSimilarityScore reference (material a) /\
                0 <= similarity_score a <= 100 /\
                forall c : scored,
                  In c (candidates table reference) ->
                  In c (map ranked alts) \/ snd c <= similarity_score a)
             alts.
Proof.
  intros table materialName dimensions reference Hfound.
  destruct (sort_stable scored snd (candidates table reference))
    as (Hsorted & Hperm & _).
  pose proof (findAlternatives_found table materialName dimensions reference Hfound)
    as Hrun.
  set (sorted := JsArray.sort (comparatorOf snd) (candidates table reference)) in *.
  set (attach := fun alt : scored =>
                   mkAlternative (fst alt) (snd alt)
                     (compareMaterials reference (fst alt) dimensions)) in *.
  exists (map attach (firstn 5 sorted)). split; [exact Hrun |].
  assert (Hranked : map ranked (map attach (firstn 5 sorted)) = firstn 5 sorted).
  { rewrite map_map.
    transitivity (map (fun c : scored => c) (firstn 5 sorted)); [| apply map_id].
    apply map_ext. now intros [m s]. }
  rewrite Hranked.
  apply Forall_forall. intros a Ha.
  apply in_map_iff in Ha as (c & <- & Hc). cbn [material similarity_score attach].
  assert (Hcand : In c (candidates table reference)).
  { apply (Permutation_in _ Hperm). now apply In_firstn in Hc. }
  assert (Hrow : exists m, c = (m, calculateSimilarityScore reference m)
                           /\ In m table).
  { unfold candidates, score in Hcand.
    apply in_map_iff in Hcand as (m & <- & Hm).
    apply filter_In in Hm as (Hm & _). now exists m. }
  destruct Hrow as (m & -> & Hm). cbn [fst snd].
  split; [exact Hm |]. split; [reflexivity |].
  split; [apply score_in_range |].
  intros c' Hc'.
  apply (Permutation_in _ (Permutation_sym Hperm)) in Hc'.
  assert (Hsplit : In c' (firstn 5 sorted ++ skipn 5 sorted))
    by (rewrite firstn_skipn; exact Hc').
  apply in_app_or in Hsplit as [Hin | Hout]; [now left | right].
  assert (Hsorted' : StronglySorted (descendingBy snd)
                       (firstn 5 sorted ++ skipn 5 sorted))
    by (rewrite firstn_skipn; exact Hsorted).
  exact (StronglySorted_app_order _ _ _ _ Hsorted' _ _ Hc Hout).
Qed.

Lemma alternatives_are_the_best_witness :
  exists alts : list Alternative,
    findAlternatives catalog "AISI 1018 Steel" None = Resolved alts /\
    Forall (fun a =>
              In (material a) insertDefaultMaterials /\
              similarity_score a = calculateSimilarityScore steel1018 (material a) /\
              0 <= similarity_score a <= 100 /\
              forall c : scored,
                In c (candidates insertDefaultMaterials steel1018) ->
                In c (map ranked alts) \/ snd c <= similarity_score a)
           alts.
Proof.
  exact (alternatives_are_the_best insertDefaultMaterials "AISI 1018 Steel" None
           steel1018 eq_refl).
Defined.

End AlternativesFacts.

(* ================================================================== *)
(** ** More on the comparison *)
(* ================================================================== *)

Section DeltaFacts.

Local Open Scope Q_scope.

Lemma Qeq_bool_0_false (q : Q) : ~ q == 0 -> Qeq_bool q 0 = false.
Proof.
  intro H. destruct (Qeq_bool q 0) eqn:E; [| reflexivity].
  now apply Qeq_bool_iff in E.
Qed.

(** The Delta of two finite values whose original is not 0. *)
Lemma delta_finite_nonzero (o a : Q) :
  ~ o == 0 ->
  exists diff pct : Q,
    delta (Fin o) (Fin a) = mkDelta (Fin o) (Fin a) (Fin diff) (Fin pct) /\
    diff == a - o /\ pct == (a - o) / o * 100.
Proof.
  intro Ho. unfold delta, sub, div. cbn [neg add eqb mul].
  rewrite (Qeq_bool_0_false o Ho). cbn [negb].
  destruct (Qsgn_spec o) as [(-> & H) | [(-> & H) | (-> & H)]];
    [contradiction | |]; cbn [mul];
    do 2 eexists; (split; [reflexivity | split; reflexivity]).
Qed.

Lemma delta_zero_original (a : Q) (o : Q) :
  o == 0 -> delta (Fin o) (Fin a) = mkDelta (Fin o) (Fin a) (Fin (a + - o)) (Fin 0).
Proof.
  intro Ho. unfold delta, sub. cbn [neg add eqb].
  apply Qeq_bool_iff in Ho. now rewrite Ho.
Qed.

Lemma weight_at (d v : Q) :
  ((Fin d * Fin v) / Fin 1000000)%num = Fin (d * v / 1000000).
Proof. reflexivity. Qed.

(** X14.  A candidate that is no denser than the original never shows a
    weight increase, and one that is no lighter never shows a decrease: at
    a volume above 0 the weight difference of the comparison is not above
    0 in the first case and not below 0 in the second. *)
Theorem weight_difference_follows_density :
  forall (orig alt : MaterialRecord) (dimensions : option DimensionsArg),
    (Fin 0 <? comparisonVolume dimensions)%num = true ->
    let d := cmp_weight (compareMaterials orig alt dimensions) in
    (density alt <= density orig -> (Fin 0 <? difference d)%num = false) /\
    (density orig <= density alt -> (difference d <? Fin 0)%num = false).
Proof.
  intros orig alt dimensions Hvol. unfold compareMaterials.
  cbn [cmp_weight]. unfold delta. cbn [difference].
  destruct (comparisonVolume dimensions) as [| | | v]; try discriminate Hvol.
  - cbn [mul]. unfold scale_inf.
    destruct (Qsgn_spec (density orig)) as [(-> & Ho) | [(-> & Ho) | (-> & Ho)]];
      destruct (Qsgn_spec (density alt)) as [(-> & Ha) | [(-> & Ha) | (-> & Ha)]];
      cbn; split; intro H; try reflexivity; exfalso; lra.
  - apply ltb_Fin in Hvol. rewrite !weight_at. unfold sub. cbn [neg add].
    assert (Hmono : forall x y : Q, x <= y -> x * v / 1000000 <= y * v / 1000000).
    { intros x y Hxy. unfold Qdiv. apply Qmult_le_compat_r; [nra | discriminate]. }
    split; intro H; apply Hmono in H;
      match goal with
      | |- ?b = false => destruct b eqn:E; [| reflexivity]
      end; apply ltb_Fin in E; exfalso; lra.
Qed.

Lemma weight_difference_follows_density_witness :
  (Fin 0 <? comparisonVolume boxDimensions)%num = true /\
  density aluminum6061 <= density steel1018 /\
  (Fin 0 <? difference (cmp_weight (compareMaterials steel1018 aluminum6061
                                      boxDimensions)))%num = false.
Proof.
  assert (Hd : density aluminum6061 <= density steel1018) by discriminate.
  split; [reflexivity |]. split; [exact Hd |].
  exact (proj1 (weight_difference_follows_density steel1018 aluminum6061
                  boxDimensions eq_refl) Hd).
Defined.

Lemma delta_same (o : Q) :
  (difference (delta (Fin o) (Fin o)) == Fin 0)%num /\
  (percent_change (delta (Fin o) (Fin o)) == Fin 0)%num.
Proof.
  destruct (Qeq_dec o 0) as [Ho | Ho].
  - rewrite (delta_zero_original o o Ho). cbn. split; [ring | reflexivity].
  - destruct (delta_finite_nonzero o o Ho) as (diff & pct & -> & Hdiff & Hpct).
    cbn. split; [rewrite Hdiff; ring |].
    rewrite Hpct. field. exact Ho.
Qed.

Lemma delta_of_same (o : number) :
  let d := delta o o in
  alternative d = original d /\
  (finite (original d) ->
   (difference d == Fin 0)%num /\ (percent_change d == Fin 0)%num).
Proof.
  split; [reflexivity |].
  destruct o as [| | | q]; cbn [delta original finite]; try contradiction.
  intros _. apply delta_same.
Qed.

(** X15.  Comparing a material with itself reports no change: in every
    Delta the alternative is the original, and wherever the original is a
    finite number the difference and the percentage change are 0. *)
Theorem compare_with_itself :
  forall (m : MaterialRecord) (dimensions : option DimensionsArg),
    Forall (fun d =>
              alternative d = original d /\
              (finite (original d) ->
               (difference d == Fin 0)%num /\ (percent_change d == Fin 0)%num))
           (deltas (compareMaterials m m dimensions)).
Proof.
  intros m dimensions.
  unfold deltas, compareMaterials, propertyDelta.
  cbn [cmp_weight cmp_cost cmp_tensile_strength cmp_yield_strength
       cmp_elastic_modulus].
  destruct (tensile_strength m), (yield_strength m), (elastic_modulus m);
    cbn [optional app]; repeat (apply Forall_cons; [apply delta_of_same |]);
    apply Forall_nil.
Qed.

End DeltaFacts.

(* ================================================================== *)
(** ** processFile *)
(* ================================================================== *)

Section PipelineFacts.
Import Pipeline.

Lemma positive_number (v : number) :
  isNaN v = false -> (v <=? Fin 0)%num = false -> (Fin 0 <? v)%num = true.
Proof.
  destruct v as [| | | q]; cbn [isNaN]; try discriminate; try reflexivity.
  intros _ H. apply ltb_Fin.
  destruct (Qlt_le_dec 0 q) as [Hq | Hq]; [exact Hq |].
  apply leb_Fin in Hq. rewrite Hq in H. discriminate H.
Qed.

Lemma calculateWeight_resolved (db : Database) (materialName : string)
    (v w : number) :
  calculateWeight db materialName (JNum v) = Resolved w ->
  isNaN v = false /\ (v <=? Fin 0)%num = false.
Proof.
  unfold calculateWeight. cbn [toFloat].
  destruct (isNaN v); [discriminate |].
  destruct (v <=? Fin 0)%num; [discriminate |]. auto.
Qed.

Lemma calculateCost_resolved (db : Database) (materialName : string)
    (w c : number) :
  calculateCost db materialName (JNum w) = Resolved c ->
  isNaN w = false /\ (w <=? Fin 0)%num = false.
Proof.
  unfold calculateCost. cbn [toFloat].
  destruct (isNaN w); [discriminate |].
  destruct (w <=? Fin 0)%num; [discriminate |]. auto.
Qed.

(** What [processFile] resolves with is built from the measure. *)
Lemma processFile_resolved (db : Database) (file : UploadedFile)
    (fileExtension : string) (r : Processed) :
  processFile db file fileExtension = Resolved r ->
  let m := measure file fileExtension in
  p_dimensions r = m_dimensions m /\ p_volume r = m_volume m /\
  p_material r = m_material m /\ p_annotations r = m_annotations m /\
  calculateWeight db (m_material m) (JNum (m_volume m)) = Resolved (p_weight r) /\
  calculateCost db (m_material m) (JNum (p_weight r)) = Resolved (p_cost r).
Proof.
  unfold processFile. cbv zeta.
  destruct (calculateWeight db _ _) as [weight |] eqn:Hw; [| discriminate].
  destruct (calculateCost db _ _) as [cost |] eqn:Hc; [| discriminate].
  destruct (findAlternatives db _ _) as [alts |]; [| discriminate].
  intros [= <-]. cbn. auto 10.
Qed.

Lemma measure_volume (file : UploadedFile) (fileExtension : string) :
  String.eqb fileExtension "stl" = false ->
  m_volume (measure file fileExtension)
  = product (m_dimensions (measure file fileExtension)).
Proof.
  intro Hstl. unfold measure. rewrite Hstl.
  destruct (String.eqb fileExtension "step" || String.eqb fileExtension "stp").
  - destruct (parseStepFile (lines file) (ending file)); reflexivity.
  - destruct (String.eqb fileExtension "dxf"); [reflexivity |].
    destruct (String.eqb fileExtension "dwg"); [reflexivity |].
    destruct (String.eqb fileExtension "pdf"); reflexivity.
Qed.

(** X16.  Whatever the file and the extension, a result [processFile]
    resolves with has a volume and a weight that are numbers above 0; and
    but for STL files its volume is length x width x height of its
    dimensions. *)
Theorem processFile_result_positive :
  forall (db : Database) (file : UploadedFile) (fileExtension : string)
         (r : Processed),
    processFile db file fileExtension = Resolved r ->
    (Fin 0 <? p_volume r)%num = true /\
    (Fin 0 <? p_weight r)%num = true /\
    (String.eqb fileExtension "stl" = false ->
     p_volume r = product (p_dimensions r)).
Proof.
  intros db file fileExtension r Hrun.
  destruct (processFile_resolved db file fileExtension r Hrun)
    as (Hd & Hv & _ & _ & Hweight & Hcost).
  apply calculateWeight_resolved in Hweight as (Hnan & Hpos).
  apply calculateCost_resolved in Hcost as (Hnan' & Hpos').
  rewrite Hv, Hd.
  split; [now apply positive_number |].
  split; [now apply positive_number |].
  apply measure_volume.
Qed.

Lemma processFile_result_positive_witness :
  match processFile catalog unreadable "dxf" with
  | Resolved r =>
      (Fin 0 <? p_volume r)%num = true /\
      (Fin 0 <? p_weight r)%num = true /\
      p_volume r = product (p_dimensions r)
  | Rejected _ => False
  end.
Proof.
  destruct (processFile catalog unreadable "dxf") as [r | err] eqn:E.
  - destruct (processFile_result_positive catalog unreadable "dxf" r E)
      as (Hv & Hw & Hp).
    split; [exact Hv |]. split; [exact Hw |]. exact (Hp eq_refl).
  - vm_compute in E. discriminate E.
Defined.

(** X17.  For an extension other than stl, step and stp the file is never
    read: two uploads with the same extension get the same outcome. *)
Theorem drawings_are_not_read :
  forall (db : Database) (file1 file2 : UploadedFile) (fileExtension : string),
    String.eqb fileExtension "stl" = false ->
    String.eqb fileExtension "step" = false ->
    String.eqb fileExtension "stp" = false ->
    processFile db file1 fileExtension = processFile db file2 fileExtension.
Proof.
  intros db file1 file2 fileExtension Hstl Hstep Hstp.
  unfold processFile, measure. now rewrite Hstl, Hstep, Hstp.
Qed.

Lemma drawings_are_not_read_witness :
  processFile catalog unreadable "pdf" = processFile catalog (stepUpload block) "pdf".
Proof.
  exact (drawings_are_not_read catalog unreadable (stepUpload block) "pdf"
           eq_refl eq_refl eq_refl).
Defined.

Lemma measure_step (file : UploadedFile) (fileExtension : string) :
  String.eqb fileExtension "step" || String.eqb fileExtension "stp" = true ->
  measure file fileExtension
  = match parseStepFile (lines file) (ending file) with
    | Resolved stepData =>
        mkMeasured (sd_dimensions stepData) (product (sd_dimensions stepData))
                   (if is_empty (sd_material stepData) then defaultMaterial
                    else sd_material stepData)
                   (sd_annotations stepData)
    | Rejected _ => fixedMeasure (box 30 20 5)
    end.
Proof.
  intro Hstep. unfold measure. rewrite Hstep.
  destruct (String.eqb fileExtension "stl") eqn:Hstl; [| reflexivity].
  apply String.eqb_eq in Hstl. subst fileExtension. discriminate Hstep.
Qed.

(** X18.  A STEP upload whose scanned dimensions multiply to NaN is
    rejected with 'Invalid volume value', and one whose dimensions multiply
    to 0 or less with 'Volume must be greater than zero', before the
    database is consulted; so a part whose points all lie in one plane is
    refused. *)
Theorem step_upload_rejected_on_bad_volume :
  forall (db : Database) (file : UploadedFile) (fileExtension : string),
    String.eqb fileExtension "step" || String.eqb fileExtension "stp" = true ->
    ending file = Close ->
    let volume := product (sd_dimensions (onClose (scan (lines file)))) in
    (isNaN volume = true ->
     processFile db file fileExtension = Rejected "Invalid volume value") /\
    (isNaN volume = false -> (volume <=? Fin 0)%num = true ->
     processFile db file fileExtension = Rejected "Volume must be greater than zero").
Proof.
  intros db file fileExtension Hstep Hclose volume. subst volume.
  unfold processFile. rewrite (measure_step file fileExtension Hstep), Hclose.
  cbn [parseStepFile m_volume m_material]. unfold calculateWeight. cbn [toFloat].
  split; [intros -> | intros -> ->]; reflexivity.
Qed.

Lemma step_upload_rejected_on_bad_volume_witness :
  processFile brokenDb (stepUpload stepPoints) "step" = Rejected "Invalid volume value" /\
  processFile catalog (stepUpload flatPart) "stp"
  = Rejected "Volume must be greater than zero".
Proof.
  split.
  - exact (proj1 (step_upload_rejected_on_bad_volume brokenDb (stepUpload stepPoints)
                    "step" eq_refl eq_refl) eq_refl).
  - exact (proj2 (step_upload_rejected_on_bad_volume catalog (stepUpload flatPart)
                    "stp" eq_refl eq_refl) eq_refl eq_refl).
Defined.

(** X19.  A read error on a STEP upload is not reported: whatever the
    error and the lines read before it, the outcome is the one of a
    30 x 20 x 5 part of the default steel with the default annotations. *)
Theorem step_read_error_falls_back :
  forall (db : Database) (file : UploadedFile) (fileExtension err : string),
    String.eqb fileExtension "step" || String.eqb fileExtension "stp" = true ->
    ending file = ReadError err ->
    processFile db file fileExtension = processFile db unreadable "step" /\
    forall r, processFile db file fileExtension = Resolved r ->
              p_dimensions r = box 30 20 5 /\
              (p_volume r == Fin 3000)%num /\
              p_material r = "AISI 1018 Steel" /\
              p_annotations r = defaultAnnotations.
Proof.
  intros db file fileExtension err Hstep Hend.
  assert (Hm : measure file fileExtension = fixedMeasure (box 30 20 5)).
  { rewrite (measure_step file fileExtension Hstep), Hend. reflexivity. }
  split.
  - unfold processFile. rewrite Hm. reflexivity.
  - intros r Hrun.
    destruct (processFile_resolved db file fileExtension r Hrun)
      as (Hd & Hv & Hmat & Hann & _).
    rewrite Hm in Hd, Hv, Hmat, Hann. rewrite Hd, Hv, Hmat, Hann.
    repeat split; reflexivity.
Qed.

Lemma step_read_error_falls_back_witness :
  match processFile catalog (mkFile None flatPart (ReadError "EACCES")) "stp" with
  | Resolved r => p_dimensions r = box 30 20 5 /\ (p_volume r == Fin 3000)%num
  | Rejected _ => False
  end.
Proof.
  destruct (processFile catalog (mkFile None flatPart (ReadError "EACCES")) "stp")
    as [r | e] eqn:E.
  - destruct (proj2 (step_read_error_falls_back catalog
                       (mkFile None flatPart (ReadError "EACCES")) "stp" "EACCES"
                       eq_refl eq_refl) r E) as (Hd & Hv & _).
    split; [exact Hd | exact Hv].
  - vm_compute in E. discriminate E.
Defined.

Lemma closeMaterial_not_empty (info content : string) :
  is_empty (closeMaterial info content) = false.
Proof.
  unfold closeMaterial. destruct (is_empty info) eqn:E; cbn [negb]; [| exact E].
  destruct (includes (toLowerCase content) "acier"); [reflexivity |].
  destruct (includes (toLowerCase content) "aluminium" || _); [reflexivity |].
  destruct (includes (toLowerCase content) "titanium" || _); reflexivity.
Qed.

(** X20.  For a STEP upload that is read to its end, the result carries
    the scan's own dimensions, material and annotations: the default
    material and the default annotations of [processFile] are never used,
    even when the scan found no annotation. *)
Theorem step_result_is_the_scan :
  forall (db : Database) (file : UploadedFile) (fileExtension : string)
         (r : Processed),
    String.eqb fileExtension "step" || String.eqb fileExtension "stp" = true ->
    ending file = Close ->
    processFile db file fileExtension = Resolved r ->
    let data := onClose (scan (lines file)) in
    p_dimensions r = sd_dimensions data /\
    p_material r = sd_material data /\
    p_annotations r = sd_annotations data /\
    p_material r <> "".
Proof.
  intros db file fileExtension r Hstep Hclose Hrun data.
  destruct (processFile_resolved db file fileExtension r Hrun)
    as (Hd & _ & Hmat & Hann & _).
  rewrite (measure_step file fileExtension Hstep), Hclose in Hd, Hmat, Hann.
  cbn [parseStepFile m_dimensions m_material m_annotations] in Hd, Hmat, Hann.
  fold data in Hd, Hmat, Hann.
  assert (Hne : is_empty (sd_material data) = false)
    by apply closeMaterial_not_empty.
  rewrite Hne in Hmat.
  repeat split; try assumption.
  rewrite Hmat. intro E. rewrite E in Hne. discriminate Hne.
Qed.

Lemma step_result_is_the_scan_witness :
  match processFile catalog (stepUpload block) "step" with
  | Resolved r =>
      p_dimensions r = Dim.mk (Fin 20) (Fin 3) (Fin 1) /\
      p_material r = "AISI 1018 Steel" /\
      p_annotations r = []
  | Rejected _ => False
  end.
Proof.
  destruct (processFile catalog (stepUpload block) "step") as [r | e] eqn:E.
  - destruct (step_result_is_the_scan catalog (stepUpload block) "step" r
                eq_refl eq_refl E) as (Hd & Hm & Ha & _).
    split; [exact Hd |]. split; [exact Hm | exact Ha].
  - vm_compute in E. discriminate E.
Defined.

End PipelineFacts.

(* ================================================================== *)
(** ** The preview drawing *)
(* ================================================================== *)

Section PreviewFacts.
Import Preview.

Local Open Scope Q_scope.

(** X22.  A box with no extent in the drawing plane (a single point, or
    points on one line along z) has an infinite scale, and its own corner
    is drawn at NaN on both axes. *)
Theorem preview_degenerate_box :
  forall n0 n1 n2 x2 : Q,
    let bbox := mkBox (Fin n0, Fin n1, Fin n2) (Fin n0, Fin n1, Fin x2) in
    scale bbox = PInf /\
    transformX bbox (Fin n0) = NaN /\ transformY bbox (Fin n1) = NaN.
Proof.
  intros n0 n1 n2 x2 bbox. subst bbox.
  assert (Hzero : forall q : Q, Qsgn (q + - q) = Eq).
  { intro q. unfold Qsgn. apply Qeq_alt. ring. }
  assert (Hs : scale (mkBox (Fin n0, Fin n1, Fin n2) (Fin n0, Fin n1, Fin x2)) = PInf).
  { unfold scale, modelWidth, modelHeight, width, height, padding, sub, div.
    cbn [box_min box_max neg add mul]. rewrite !Hzero. reflexivity. }
  split; [exact Hs |].
  unfold transformX, transformY. cbn [box_min]. rewrite Hs.
  unfold padding, height, sub. cbn [neg add mul]. unfold scale_inf.
  rewrite !Hzero. split; reflexivity.
Qed.

End PreviewFacts.

(* ================================================================== *)
(** ** The quoted fields *)
(* ================================================================== *)

Section QuotedFacts.

Lemma radii_unsigned_witness :
  Forall (fun r => isNaN r = true \/ (r >=? Fin 0)%num = true)
         (sd_circles (onClose (scan plainWasher))).
Proof.
  exact (radii_unsigned plainWasher _ eq_refl).
Defined.

Lemma span_until_clean (c : ascii) (s : string) :
  includes (fst (span_until c s)) (String c "") = false.
Proof.
  induction s as [| a s IH]; cbn [span_until]; [reflexivity |].
  destruct (Ascii.eqb_spec a c) as [-> | Hne]; [reflexivity |].
  destruct (span_until c s) as [u r]. cbn [fst] in *.
  cbn [includes prefix]. rewrite IH.
  destruct (ascii_dec c a) as [E | _]; [now contradiction Hne | reflexivity].
Qed.

Lemma first_delimited_clean (o c : ascii) (s x : string) :
  first_delimited o c s = Some x ->
  includes x (String c "") = false /\ x <> "".
Proof.
  induction s as [| a s IH]; cbn [first_delimited]; [discriminate |].
  destruct (Ascii.eqb a o); [| exact IH].
  pose proof (span_until_clean c s) as Hclean.
  destruct (span_until c s) as [[| b u] [r |]]; try exact IH.
  intros [= <-]. cbn [fst] in Hclean. split; [exact Hclean | discriminate].
Qed.

Lemma onLine_quoted_clean (st : ScanState) (line : string) :
  includes (productName st) "'" = false /\
  includes (materialInfo st) "'" = false /\
  Forall (fun a => includes a "'" = false /\ a <> "") (annotations st) ->
  includes (productName (onLine st line)) "'" = false /\
  includes (materialInfo (onLine st line)) "'" = false /\
  Forall (fun a => includes a "'" = false /\ a <> "") (annotations (onLine st line)).
Proof.
  intros (Hp & Hm & Ha). unfold onLine.
  destruct (if includes line "CARTESIAN_POINT" then _ else _) as [points box].
  cbn [productName materialInfo annotations].
  assert (Hq : forall x, first_quoted line = Some x ->
                         includes x "'" = false /\ x <> "")
    by (intro x; apply first_delimited_clean).
  destruct (first_quoted line) as [x |];
    [destruct (Hq x eq_refl) as (Hx & Hx') |];
    repeat match goal with
           | |- context [if ?b then _ else _] => destruct b
           end;
    repeat split; auto;
    apply Forall_app; split; auto.
Qed.

(** X24.  The product name, the material and every annotation a scan
    returns hold no quote character, and no annotation is empty. *)
Theorem quoted_fields_hold_no_quote :
  forall (lines : list string) (data : StepData),
    parseStepFile lines Close = Resolved data ->
    includes (sd_productName data) "'" = false /\
    includes (sd_material data) "'" = false /\
    Forall (fun a => includes a "'" = false /\ a <> "") (sd_annotations data).
Proof.
  intros lines data Hrun.
  apply parseStepFile_close in Hrun. subst data.
  cbn [sd_productName sd_material sd_annotations onClose].
  assert (H : forall st,
             includes (productName st) "'" = false /\
             includes (materialInfo st) "'" = false /\
             Forall (fun a => includes a "'" = false /\ a <> "") (annotations st) ->
             includes (productName (fold_left onLine lines st)) "'" = false /\
             includes (materialInfo (fold_left onLine lines st)) "'" = false /\
             Forall (fun a => includes a "'" = false /\ a <> "")
                    (annotations (fold_left onLine lines st))).
  { induction lines as [| l ls IH]; intros st Hst; cbn [fold_left]; [exact Hst |].
    apply IH. now apply onLine_quoted_clean. }
  destruct (H initialState) as (Hp & Hm & Ha).
  { repeat split; try reflexivity. constructor. }
  fold (scan lines) in Hp, Hm, Ha.
  split; [exact Hp |]. split; [| exact Ha].
  unfold closeMaterial.
  destruct (is_empty (materialInfo (scan lines))); cbn [negb]; [| exact Hm].
  repeat match goal with
         | |- context [if ?b then _ else _] => destruct b
         end; reflexivity.
Qed.

Lemma quoted_fields_hold_no_quote_witness :
  includes (sd_productName (onClose (scan plainWasher))) "'" = false /\
  includes (sd_material (onClose (scan plainWasher))) "'" = false /\
  Forall (fun a => includes a "'" = false /\ a <> "")
         (sd_annotations (onClose (scan plainWasher))).
Proof.
  exact (quoted_fields_hold_no_quote plainWasher _ eq_refl).
Defined.

End QuotedFacts.
